(** * Verification of the Streamlit OCR driver (app.py)

    The driver turns an OCR response into per-page text, a Markdown
    document and a DOCX file.  Python values are embedded as an inductive
    type of JSON-like values, Python strings as sequences of Unicode code
    points, exceptions as a class name with a message, and the effects of
    the script (session state, files, widgets put on the screen) as a
    state-and-exception monad. *)

From Stdlib Require Import NArith ZArith QArith String Ascii.
From stdpp Require Import base option list gmap pretty.

Open Scope N_scope.
Open Scope list_scope.

(** ** Python strings *)

(** A Python [str] is a sequence of Unicode code points. *)
Definition pystr : Type := list N.

(** An ASCII literal of the source, as a Python string. *)
Definition lit (s : string) : pystr :=
  map N_of_ascii (list_ascii_of_string s).

(** [str.isspace] for one code point: the characters that [str.strip]
    removes. *)
Definition is_space (c : N) : bool :=
  ((9 <=? c) && (c <=? 13)) || ((28 <=? c) && (c <=? 32))
  || (c =? 133) || (c =? 160) || (c =? 5760)
  || ((8192 <=? c) && (c <=? 8202))
  || (c =? 8232) || (c =? 8233) || (c =? 8239) || (c =? 8287)
  || (c =? 12288).

Fixpoint lstrip (s : pystr) : pystr :=
  match s with
  | c :: s' => if is_space c then lstrip s' else s
  | [] => []
  end.

Definition rstrip (s : pystr) : pystr := rev (lstrip (rev s)).

(** [s.strip()] *)
Definition strip (s : pystr) : pystr := rstrip (lstrip s).

(** Truth value of a string: non-empty. *)
Definition str_truthy (s : pystr) : bool :=
  match s with [] => false | _ :: _ => true end.

(** [str(n)] for an integer. *)
Definition str_of_Z (z : Z) : pystr := lit (pretty z).

(** The format specification [{n:,}]: decimal digits grouped by thousands. *)
Fixpoint group_thousands (fuel : nat) (n : N) : pystr :=
  match fuel with
  | O => str_of_Z (Z.of_N n)
  | S fuel' =>
      if n <? 1000 then str_of_Z (Z.of_N n)
      else
        let r := n mod 1000 in
        group_thousands fuel' (n / 1000) ++ lit ","
          ++ (if r <? 10 then lit "00" else if r <? 100 then lit "0" else [])
          ++ str_of_Z (Z.of_N r)
  end.

Definition format_thousands (n : N) : pystr :=
  group_thousands (N.to_nat (N.log2 n)) n.

(** ** Python values, as [json] produces them *)

Set Warnings "-register-all".

Inductive value : Type :=
| PNone
| PBool (b : bool)
| PInt (z : Z)
| PFloat (q : Q)
| PStr (s : pystr)
| PList (l : list value)
| PDict (d : gmap pystr value).

Abbreviation dict := (gmap pystr value).

(** [p if isinstance(p, dict) else {}] *)
Definition dict_or_empty (p : value) : dict :=
  match p with PDict d => d | _ => ∅ end.

(** ** Exceptions *)

(** An exception has a class and a message ([str(e)]).  [Exception]
    stands for the classes derived from Python's [Exception], which
    [except Exception] catches; [BaseException] for the others (Streamlit's
    script-control exceptions). *)
Inductive exn : Type :=
| Exception (cls : string) (msg : pystr)
| BaseException (cls : string) (msg : pystr).

Definition exn_class (e : exn) : string :=
  match e with Exception c _ | BaseException c _ => c end.

Definition exn_message (e : exn) : pystr :=
  match e with Exception _ m | BaseException _ m => m end.

Definition ValueError (msg : pystr) : exn := Exception "ValueError" msg.
Definition KeyError (key : pystr) : exn :=
  Exception "KeyError" (lit "'" ++ key ++ lit "'").
Definition HTTPError (msg : pystr) : exn := Exception "HTTPError" msg.
Definition UnicodeEncodeError (msg : pystr) : exn :=
  Exception "UnicodeEncodeError" msg.
Definition StopException : exn := BaseException "StopException" [].
Definition AttributeError (msg : pystr) : exn :=
  Exception "AttributeError" msg.

Inductive result (A : Type) : Type :=
| Ok (a : A)
| Raise (e : exn).
Arguments Ok {A} a.
Arguments Raise {A} e.

(** ** Files *)

Definition bytes : Type := list N.
Definition path : Type := list pystr.

(** [p / name] *)
Definition path_join (p : path) (name : pystr) : path := p ++ [name].

Abbreviation FS := (gmap path bytes).

(** [str.encode("utf-8")]: surrogates cannot be encoded. *)
Definition utf8_char (c : N) : option bytes :=
  if c <? 128 then Some [c]
  else if c <? 2048 then Some [192 + c / 64; 128 + c mod 64]
  else if c <? 65536 then
    if (55296 <=? c) && (c <=? 57343) then None
    else Some [224 + c / 4096; 128 + (c / 64) mod 64; 128 + c mod 64]
  else if c <? 1114112 then
    Some [240 + c / 262144; 128 + (c / 4096) mod 64;
          128 + (c / 64) mod 64; 128 + c mod 64]
  else None.

Fixpoint utf8_encode (s : pystr) : result bytes :=
  match s with
  | [] => Ok []
  | c :: s' =>
      match utf8_char c, utf8_encode s' with
      | Some b, Ok bs => Ok (b ++ bs)
      | None, _ =>
          Raise (UnicodeEncodeError (lit "'utf-8' codec can't encode character"))
      | _, Raise e => Raise e
      end
  end.

(** ** Streamlit: session state and the screen *)

(** Data of a download button: a string or the bytes of a file. *)
Inductive download_data : Type :=
| DataStr (s : pystr)
| DataBytes (b : bytes).

(** What the script puts on the screen, in order.  The input widgets
    (text input, checkbox, file uploader, button) are represented by the
    values they return, see [Inputs]. *)
Inductive widget : Type :=
| st_title (body : pystr)
| st_markdown (body : pystr)
| st_header (body : pystr)
| st_divider
| st_info (body : pystr)
| st_error (body : pystr)
| st_success (body : pystr)
| st_exception (e : exn)
| st_spinner (text : pystr)
| st_download_button (label : pystr) (data : download_data)
    (file_name mime : pystr)
| st_code (body language : pystr)
| st_expander (label : pystr) (expanded : bool) (text : pystr)
| st_json (body : option value).

Record SessionState : Type := {
  ocr_result : option value;
  pages_text : list pystr;
  md_text : option pystr;
  docx_path : option path
}.

(** Lines 24-31: the state of a fresh session. *)
Definition initial_session : SessionState :=
  {| ocr_result := None; pages_text := []; md_text := None; docx_path := None |}.

Record World : Type := {
  session_state : SessionState;
  files : FS;
  screen : list widget
}.

(** ** The script monad: state of the world and exceptions *)

Definition script (A : Type) : Type := World → result A * World.

#[export] Instance script_ret : MRet script := λ A a w, (Ok a, w).
#[export] Instance script_bind : MBind script := λ A B f m w,
  match m w with
  | (Ok a, w') => f a w'
  | (Raise e, w') => (Raise e, w')
  end.

Definition raise {A : Type} (e : exn) : script A := λ w, (Raise e, w).

Definition lift_result {A : Type} (r : result A) : script A := λ w, (r, w).

(** Put a widget on the screen. *)
Definition show (x : widget) : script unit := λ w,
  (Ok (), {| session_state := session_state w; files := files w;
             screen := screen w ++ [x] |}).

Definition get_session : script SessionState := λ w, (Ok (session_state w), w).

Definition put_session (s : SessionState) : script unit := λ w,
  (Ok (), {| session_state := s; files := files w; screen := screen w |}).

Definition get_files : script FS := λ w, (Ok (files w), w).

Definition put_files (fs : FS) : script unit := λ w,
  (Ok (), {| session_state := session_state w; files := fs; screen := screen w |}).

(** [try: body  except Exception as e: handler e] *)
Definition try_except {A : Type} (body : script A) (handler : exn → script A)
  : script A := λ w,
  match body w with
  | (Raise (Exception c m), w') => handler (Exception c m) w'
  | r => r
  end.

(** [Path.write_text(s, encoding="utf-8")] *)
Definition write_text (p : path) (s : pystr) : script unit :=
  b ← lift_result (utf8_encode s);
  fs ← get_files;
  put_files (<[p := b]> fs).

(** [with tempfile.TemporaryDirectory() as tmpdir: body]: the directory and
    everything below it is removed when the block is left, however it is
    left. *)
Definition remove_tree (dir : path) (fs : FS) : FS :=
  filter (λ kv, ¬ dir `prefix_of` kv.1) fs.

Definition with_TemporaryDirectory {A : Type} (mkdtemp : FS → path)
    (body : path → script A) : script A := λ w,
  let tmpdir := mkdtemp (files w) in
  match body tmpdir w with
  | (r, w') =>
      (r, {| session_state := session_state w';
             files := remove_tree tmpdir (files w');
             screen := screen w' |})
  end.

Definition lift_files {A : Type} (f : FS → result A * FS) : script A := λ w,
  match f (files w) with
  | (r, fs) =>
      (r, {| session_state := session_state w; files := fs; screen := screen w |})
  end.

(** [v.get(k)]: only a mapping has the method; on any other value the
    attribute lookup raises. *)
Definition py_get (v : value) (k : pystr) : result (option value) :=
  match v with
  | PDict d => Ok (d !! k)
  | _ => Raise (AttributeError (lit "object has no attribute 'get'"))
  end.

(** ** The imported modules *)

(** An image resource of the asset maps: a blob with an optional caption.
    The maps go from 1-based page numbers to the images of the page; the
    driver passes empty maps (text-only mode). *)
Record Asset : Type := { asset_blob : bytes; asset_caption : option pystr }.

Abbreviation assets := (gmap nat (list Asset)).

(** [import mistral_ocr]: the functions the driver calls.  The module is
    not part of app.py, so the driver is verified against this interface:
    pure functions for the text operations, and a builder that acts on the
    file system and may raise. *)
Class mistral_ocr : Type := {
  bytes_to_data_url : pystr → bytes → pystr;
  unwrap_container : value → dict;
  extract_from_page : dict → option pystr;
  build_markdown : list pystr → assets → assets → bool → Q → pystr;
  build_hybrid_docx :
    pystr → list pystr → assets → assets → path → bool → Q →
    FS → result unit * FS
}.

(** [import requests]: the answer of the OCR endpoint to a POST. *)
Record Response : Type := {
  status_code : Z;
  text : pystr;
  json : result value
}.

Class requests : Type := {
  post : pystr → list (pystr * pystr) → value → Z → result Response
}.

(** [Response.raise_for_status]: an [HTTPError] for the status codes 400
    to 599 (its message is shortened here). *)
Definition raise_for_status (r : Response) : script unit :=
  if ((400 <=? status_code r) && (status_code r <? 600))%Z
  then raise (HTTPError (str_of_Z (status_code r) ++ lit " Error"))
  else mret ().

(** [import tempfile]: the name chosen for a new temporary directory. *)
Class tempfile : Type := { mkdtemp : FS → path }.

(** ** app.py *)

Record Config : Type := { endpoint : pystr; api_key : pystr; model : pystr }.

(** [st.secrets]: the sections of the secrets file with their entries, or
    no secrets file at all. *)
Inductive Secrets : Type :=
| NoSecretsFile
| SecretsFile (sections : gmap pystr (gmap pystr pystr)).

(** What [st.secrets[...]] raises when there is no secrets file: a
    [FileNotFoundError] of Streamlit, not a [KeyError]. *)
Definition StreamlitSecretNotFoundError : exn :=
  Exception "StreamlitSecretNotFoundError" (lit "No secrets found.").

(** [m[k]].  The message of the [KeyError] is the one of a Python
    mapping, the key in quotes; Streamlit's text for a missing secret is
    its own. *)
Definition getitem {V : Type} (m : gmap pystr V) (k : pystr) : result V :=
  match m !! k with
  | Some v => Ok v
  | None => Raise (KeyError k)
  end.

(** Lines 33-44.  Only a [KeyError] is caught (line 41): without a secrets
    file the exception of [st.secrets['mistral']] leaves the function. *)
Definition get_config_from_secrets (secrets : Secrets) : script (option Config) :=
  match secrets with
  | NoSecretsFile => raise StreamlitSecretNotFoundError
  | SecretsFile sections =>
      let entry (k : pystr) : result pystr :=
        match getitem sections (lit "mistral") with
        | Ok m => getitem m k
        | Raise e => Raise e
        end in
      match entry (lit "ocr_endpoint"), entry (lit "api_key"),
            getitem sections (lit "mistral") with
      | Ok e, Ok k, Ok m =>
          mret (Some {| endpoint := e; api_key := k;
                        model := default (lit "mistral-document-ai-2505")
                                   (m !! lit "model") |})
      | Raise e, _, _ | _, Raise e, _ | _, _, Raise e =>
          show (st_error
                  (lit "Missing configuration in secrets.toml: "
                     ++ exn_message e));;
          show (st_info (lit "Please configure your secrets.toml file. See README.md for details."));;
          mret None
      end
  end.

(** Lines 46-56. *)
Definition post_ocr_with_config `{R : requests} (payload : value) (config : Config)
  : script value :=
  let headers :=
    [ (lit "Authorization", lit "Bearer " ++ api_key config);
      (lit "Content-Type", lit "application/json") ] in
  r ← lift_result (post (endpoint config) headers payload 600);
  (if (400 <=? status_code r)%Z
   then show (st_error (lit "API Error " ++ str_of_Z (status_code r)
                          ++ lit ": " ++ take 500 (text r)));;
        raise_for_status r
   else mret ());;
  lift_result (json r).

(** Line 83: the top-level text fields, in the order they are tried. *)
Definition top_level_fields : list pystr :=
  [lit "markdown"; lit "full_text"; lit "content"; lit "text"; lit "raw_text"].

(** Lines 82-86: the loop over the top-level fields, with [top] as it is
    before the loop; the first field that is a non-blank string wins. *)
Fixpoint scan_top_level (container : dict) (ks : list pystr) (top : pystr)
  : pystr :=
  match ks with
  | [] => top
  | k :: ks' =>
      match container !! k with
      | Some (PStr s) =>
          if str_truthy (strip s) then s else scan_top_level container ks' top
      | _ => scan_top_level container ks' top
      end
  end.

Definition no_content_message : pystr :=
  lit "No pages and no usable top-level text found in OCR response.".

(** Lines 78-89: the page records of a container. *)
Definition normalize_pages (container : dict) : result (list value) :=
  match container !! lit "pages" with
  | Some (PList (p :: ps)) => Ok (p :: ps)
  | _ =>
      let top := scan_top_level container top_level_fields [] in
      if negb (str_truthy (strip top)) then Raise (ValueError no_content_message)
      else Ok [PDict {[ lit "markdown" := PStr top ]}]
  end.

(** Truth value of an optional string ([None] and the empty string are
    false). *)
Definition opt_truthy (o : option pystr) : bool :=
  match o with Some s => str_truthy s | None => false end.

(** Line 94: [extract_from_page(p if isinstance(p, dict) else {})], or
    the empty string when that is [None] or empty. *)
Definition page_text `{M : mistral_ocr} (p : value) : pystr :=
  match extract_from_page (dict_or_empty p) with
  | Some s => s
  | None => []
  end.

(** Line 94 for an extractor that may raise: the call is not inside a
    [try], so an exception of the extractor leaves the loop. *)
Definition page_text_py (extract : value → result (option pystr)) (p : value)
  : result pystr :=
  match extract (PDict (dict_or_empty p)) with
  | Raise e => Raise e
  | Ok (Some s) => Ok s
  | Ok None => Ok []
  end.

(** Line 96: [f"# {title}\n\n{txt}"]. *)
Definition with_heading (title txt : pystr) : pystr :=
  lit "# " ++ title ++ [10; 10] ++ txt.

(** Lines 92-97: the loop over [enumerate(pages, start=i)]. *)
Fixpoint extract_pages_text `{M : mistral_ocr} (title : option pystr) (i : nat)
    (pages : list value) : list pystr :=
  match pages with
  | [] => []
  | p :: ps =>
      let txt := page_text p in
      let txt :=
        match title with
        | Some t => if str_truthy t && (i =? 1)%nat then with_heading t txt else txt
        | None => txt
        end in
      txt :: extract_pages_text title (S i) ps
  end.

(** The value [process_pdf] returns. *)
Record ProcessResult : Type := {
  result_response : value;
  result_pages_text : list pystr;
  result_md_text : pystr;
  result_num_pages : nat
}.

(** Lines 62-74: the request sent to the OCR service and its answer. *)
Definition ocr_payload (config : Config) (data_url : pystr) : value :=
  PDict {[ lit "model" := PStr (model config);
           lit "document" :=
             PDict {[ lit "type" := PStr (lit "document_url");
                      lit "document_url" := PStr data_url ]};
           lit "include_image_base64" := PBool false ]}.

Definition call_ocr `{M : mistral_ocr} `{R : requests} (pdf_bytes : bytes)
    (config : Config) : script value :=
  let data_url := bytes_to_data_url (lit "application/pdf") pdf_bytes in
  let payload := ocr_payload config data_url in
  show (st_spinner (lit "Processing PDF with  Doc Intelligence..."));;
  post_ocr_with_config payload config.

(** Lines 58-113. *)
Definition process_pdf `{M : mistral_ocr} `{R : requests} (pdf_bytes : bytes)
    (config : Config) (title : option pystr) (insert_page_breaks : bool)
  : script ProcessResult :=
  resp ← call_ocr pdf_bytes config;
  let container := unwrap_container resp in
  pages ← lift_result (normalize_pages container);
  let pages_text := extract_pages_text title 1 pages in
  let md_text := build_markdown pages_text ∅ ∅ insert_page_breaks (13 # 2) in
  mret {| result_response := resp; result_pages_text := pages_text;
          result_md_text := md_text; result_num_pages := length pages |}.

(** Lines 115-131. *)
Definition create_docx `{M : mistral_ocr} (md_text : pystr) (pages_text : list pystr)
    (output_dir : path) (insert_page_breaks : bool) : script path :=
  let docx_path := path_join output_dir (lit "output.docx") in
  show (st_spinner (lit "Generating DOCX file..."));;
  lift_files (build_hybrid_docx md_text pages_text ∅ ∅ docx_path
                insert_page_breaks (13 # 2));;
  mret docx_path.

(** The values the input widgets return in one run of the script. *)
Record Inputs : Type := {
  title_input : pystr;
  insert_page_breaks_input : bool;
  uploaded_file : option (pystr * bytes);
  process_button : bool
}.

(** Line 172: [title if title else None]. *)
Definition title_argument (title : pystr) : option pystr :=
  if str_truthy title then Some title else None.

(** Lines 165-185: the handler of the process button. *)
Definition process_clicked `{M : mistral_ocr} `{R : requests} (config : Config)
    (title : pystr) (insert_page_breaks : bool) (pdf_bytes : bytes)
  : script unit :=
  try_except
    (result ← process_pdf pdf_bytes config (title_argument title)
                insert_page_breaks;
     s ← get_session;
     put_session {| ocr_result := Some (result_response result);
                    pages_text := result_pages_text result;
                    md_text := Some (result_md_text result);
                    docx_path := docx_path s |};;
     show (st_success ([9989] ++ lit " Successfully processed "
                         ++ str_of_Z (Z.of_nat (result_num_pages result))
                         ++ lit " page(s)!")))
    (λ e,
       show (st_error ([10060] ++ lit " Error processing PDF: "
                         ++ exn_message e));;
       show (st_exception e)).

(** [st.session_state.md_text] where a string is needed. *)
Definition session_md_text : script pystr :=
  s ← get_session;
  match md_text s with
  | Some md => mret md
  | None => raise (Exception "TypeError" (lit "md_text is None"))
  end.

(** Lines 241-243: one expander per page. *)
Fixpoint show_pages (i : nat) (pages : list pystr) : script unit :=
  match pages with
  | [] => mret ()
  | page :: rest =>
      show (st_expander (lit "Page " ++ str_of_Z (Z.of_nat i)) (i =? 1)%nat page);;
      show_pages (S i) rest
  end.

Definition markdown_failed_label : pystr :=
  [128229] ++ lit " Download Markdown (DOCX failed)".

(** Lines 189-259: the results, shown when the session holds Markdown. *)
Definition show_results `{M : mistral_ocr} `{T : tempfile} (insert_page_breaks : bool)
  : script unit :=
  show st_divider;;
  show (st_header ([128202] ++ lit " Results"));;
  with_TemporaryDirectory mkdtemp (λ tmp_path,
    let md_path := path_join tmp_path (lit "output.md") in
    md ← session_md_text;
    write_text md_path md;;
    try_except
      (md ← session_md_text;
       s ← get_session;
       docx_path ← create_docx md (pages_text s) tmp_path insert_page_breaks;
       md ← session_md_text;
       show (st_download_button ([128229] ++ lit " Download Markdown")
               (DataStr md) (lit "output.md") (lit "text/markdown"));;
       fs ← get_files;
       match fs !! docx_path with
       | Some docx_bytes =>
           show (st_download_button ([128229] ++ lit " Download DOCX")
                   (DataBytes docx_bytes) (lit "output.docx")
                   (lit "application/vnd.openxmlformats-officedocument.wordprocessingml.document"))
       | None => mret ()
       end;;
       show (st_markdown (lit "### Markdown Output"));;
       md ← session_md_text;
       show (st_code md (lit "markdown"));;
       show (st_markdown (lit "### Extracted Pages"));;
       s ← get_session;
       show_pages 1 (pages_text s);;
       show (st_markdown (lit "### Raw OCR Response"));;
       s ← get_session;
       show (st_json (ocr_result s)))
      (λ e,
         show (st_error ([10060] ++ lit " Error creating DOCX: "
                           ++ exn_message e));;
         show (st_exception e);;
         md ← session_md_text;
         show (st_download_button markdown_failed_label (DataStr md)
                 (lit "output.md") (lit "text/markdown")))).

(** Lines 133-259: one run of the script. *)
Definition main `{M : mistral_ocr} `{R : requests} `{T : tempfile} (secrets : Secrets)
    (inputs : Inputs) : script unit :=
  show (st_title ([128196] ++ lit " Suvichaar Doc Intelligence Platform Test"));;
  show (st_markdown (lit "Upload a PDF file to extract text and convert it to Markdown and DOCX formats."));;
  config ← get_config_from_secrets secrets;
  match config with
  | None => raise StopException
  | Some config =>
      show (st_header ([9881; 65039] ++ lit " Settings"));;
      show st_divider;;
      show (st_info ([128161] ++ lit " Configure your API credentials in `.streamlit/secrets.toml`"));;
      match uploaded_file inputs with
      | None => mret ()
      | Some (name, data) =>
          show (st_info ([128206] ++ lit " File: " ++ name ++ lit " ("
                           ++ format_thousands (N.of_nat (length data))
                           ++ lit " bytes)"));;
          (if process_button inputs
           then process_clicked config (title_input inputs)
                  (insert_page_breaks_input inputs) data
           else mret ());;
          s ← get_session;
          if opt_truthy (md_text s)
          then show_results (insert_page_breaks_input inputs)
          else mret ()
      end
  end.

(** ** The module mistral_ocr, from its specification

    The module's source is not part of the driver; the definitions below
    follow the component descriptions of the specification.  What the
    specification leaves open (the syntax of an image reference, the names
    of the block-list fields, how text becomes document elements) is a
    parameter. *)

(** [s.startswith(m)] *)
Fixpoint starts_with (m s : pystr) : bool :=
  match m, s with
  | [], _ => true
  | c :: m', d :: s' => (c =? d) && starts_with m' s'
  | _ :: _, [] => false
  end.

(** Number of positions of [s] at which [m] starts.  For a marker that
    does not overlap itself, as the page-break marker, this is
    [s.count(m)]. *)
Fixpoint occurrences (m s : pystr) : nat :=
  match s with
  | [] => if starts_with m [] then 1 else 0
  | _ :: s' => (if starts_with m s then 1 else 0) + occurrences m s'
  end.

(** [sep.join(parts)] *)
Fixpoint join (sep : pystr) (parts : list pystr) : pystr :=
  match parts with
  | [] => []
  | p :: rest =>
      match rest with
      | [] => p
      | _ :: _ => p ++ sep ++ join sep rest
      end
  end.

Module Spec.

(** *** Unwrapping the response (section 4.1)

    The container is the innermost mapping with a usable [pages] sequence
    under the wrapper keys [data], [result], [response]; when there is
    none, the response itself, whose top-level fields the driver then
    scans. *)

(** Modelled from the spec: a mapping with a usable [pages] sequence. *)
Definition has_pages (d : dict) : bool :=
  match d !! lit "pages" with Some (PList (_ :: _)) => true | _ => false end.

(** Modelled from the spec: the wrapper keys named in section 4.1. *)
Definition wrapper_keys : list pystr :=
  [lit "data"; lit "result"; lit "response"].

(** Modelled from the spec: the first wrapper key under which pages were
    found. *)
Fixpoint first_wrapped {A : Type} (inner : gmap pystr (option A))
    (ks : list pystr) : option A :=
  match ks with
  | [] => None
  | k :: ks' =>
      match inner !! k with
      | Some (Some d) => Some d
      | _ => first_wrapped inner ks'
      end
  end.

(** Modelled from the spec: the search through the levels of wrappers. *)
Fixpoint find_pages (v : value) : option dict :=
  match v with
  | PDict d =>
      if has_pages d then Some d
      else first_wrapped (find_pages <$> d) wrapper_keys
  | _ => None
  end.

(** Modelled from the spec: [mistral_ocr.unwrap_container], which is not
    in the source (section 4.1). *)
Definition unwrap_container (resp : value) : dict :=
  match find_pages resp with
  | Some d => d
  | None => dict_or_empty resp
  end.

(** *** The text of a page record (section 4.2)

    The text is the record's [markdown] field, else [text], else
    [content], else the pieces of a nested block list concatenated in
    order, else the empty string. *)

(** Modelled from the spec: the precedence table of the text fields. *)
Definition text_fields : list pystr :=
  [lit "markdown"; lit "text"; lit "content"].

(** Modelled from the spec: the first field of the table holding a
    string. *)
Fixpoint first_text_field (p : dict) (ks : list pystr) : option pystr :=
  match ks with
  | [] => None
  | k :: ks' =>
      match p !! k with
      | Some (PStr s) => Some s
      | _ => first_text_field p ks'
      end
  end.

(** Modelled from the spec: the first block-list field holding a list. *)
Fixpoint first_block_list (p : dict) (ks : list pystr) : option (list value) :=
  match ks with
  | [] => None
  | k :: ks' =>
      match p !! k with
      | Some (PList l) => Some l
      | _ => first_block_list p ks'
      end
  end.

(** Modelled from the spec: [mistral_ocr.extract_from_page], which is not
    in the source (section 4.2). *)
Definition extract_from_page (block_list_fields : list pystr)
    (piece_text : value → pystr) (p : dict) : pystr :=
  match first_text_field p text_fields with
  | Some s => s
  | None =>
      match first_block_list p block_list_fields with
      | Some l => concat (map piece_text l)
      | None => []
      end
  end.

(** Modelled from the spec: the same extractor as the Python function it
    is, on any value and with the exception its lookups can raise:

      def extract_from_page(p):
          if not isinstance(p, dict): return str()
          for k in TEXT_FIELDS:
              v = p.get(k)
              if isinstance(v, str): return v
          for k in BLOCK_LIST_FIELDS:
              v = p.get(k)
              if isinstance(v, list): return str().join(piece_text(b) for b in v)
          return str()
*)
Fixpoint first_text_field_py (p : value) (ks : list pystr)
  : result (option pystr) :=
  match ks with
  | [] => Ok None
  | k :: ks' =>
      match py_get p k with
      | Raise e => Raise e
      | Ok (Some (PStr s)) => Ok (Some s)
      | Ok _ => first_text_field_py p ks'
      end
  end.

Fixpoint first_block_list_py (p : value) (ks : list pystr)
  : result (option (list value)) :=
  match ks with
  | [] => Ok None
  | k :: ks' =>
      match py_get p k with
      | Raise e => Raise e
      | Ok (Some (PList l)) => Ok (Some l)
      | Ok _ => first_block_list_py p ks'
      end
  end.

(** Modelled from the spec: the two searches without the test of the
    first line. *)
Definition search_page_py (block_list_fields : list pystr)
    (piece_text : value → pystr) (p : value) : result (option pystr) :=
  match first_text_field_py p text_fields with
  | Raise e => Raise e
  | Ok (Some s) => Ok (Some s)
  | Ok None =>
      match first_block_list_py p block_list_fields with
      | Raise e => Raise e
      | Ok (Some l) => Ok (Some (concat (map piece_text l)))
      | Ok None => Ok (Some [])
      end
  end.

Definition extract_from_page_py (block_list_fields : list pystr)
    (piece_text : value → pystr) (p : value) : result (option pystr) :=
  match p with
  | PDict _ => search_page_py block_list_fields piece_text p
  | _ => Ok (Some [])
  end.

(** *** The Markdown assembler (section 4.4 and the example of section 8)

    Every page contributes its text verbatim (nothing when it is empty),
    then the references of its images and crops, then the page-break
    marker when breaks are on and the page is not the last; the pieces are
    separated by a blank line. *)

(** Modelled from the spec: the marker of the example in section 8. *)
Definition page_break_marker : pystr := lit "<page-break>".

(** Modelled from the spec: the separator of the pieces in that example. *)
Definition blank_line : pystr := [10; 10].

(** Modelled from the spec: the pieces of page [i] of [n] (section 4.4). *)
Definition page_parts (image_reference : Asset → Q → pystr) (n i : nat)
    (txt : pystr) (images_by_page crops_by_page : assets)
    (insert_page_breaks : bool) (image_max_width_in : Q) : list pystr :=
  (if str_truthy txt then [txt] else [])
  ++ map (λ a, image_reference a image_max_width_in)
       (default [] (images_by_page !! i))
  ++ map (λ a, image_reference a image_max_width_in)
       (default [] (crops_by_page !! i))
  ++ (if insert_page_breaks && (i <? n)%nat then [page_break_marker] else []).

(** Modelled from the spec: the pieces of the pages from number [i] on. *)
Fixpoint markdown_parts (image_reference : Asset → Q → pystr) (n i : nat)
    (pages_text : list pystr) (images_by_page crops_by_page : assets)
    (insert_page_breaks : bool) (image_max_width_in : Q) : list pystr :=
  match pages_text with
  | [] => []
  | txt :: rest =>
      page_parts image_reference n i txt images_by_page crops_by_page
        insert_page_breaks image_max_width_in
      ++ markdown_parts image_reference n (S i) rest images_by_page
           crops_by_page insert_page_breaks image_max_width_in
  end.

(** Modelled from the spec: [mistral_ocr.build_markdown], which is not in
    the source (section 4.4). *)
Definition build_markdown (image_reference : Asset → Q → pystr)
    (pages_text : list pystr) (images_by_page crops_by_page : assets)
    (insert_page_breaks : bool) (image_max_width_in : Q) : pystr :=
  join blank_line
    (markdown_parts image_reference (length pages_text) 1 pages_text
       images_by_page crops_by_page insert_page_breaks image_max_width_in).

(** Modelled from the spec: what the specification leaves open.  The
    hybrid DOCX builder (section 4.5) is left open as a whole: any
    function on the file system that may raise. *)
Record Choices : Type := {
  data_url : pystr → bytes → pystr;
  block_list_fields : list pystr;
  piece_text : value → pystr;
  image_reference : Asset → Q → pystr;
  docx_builder :
    pystr → list pystr → assets → assets → path → bool → Q →
    FS → result unit * FS
}.

End Spec.

(** Modelled from the spec: the module [mistral_ocr] as a whole, for given
    choices of what is left open. *)
Definition spec_module (c : Spec.Choices) : mistral_ocr := {|
  bytes_to_data_url := Spec.data_url c;
  unwrap_container := Spec.unwrap_container;
  extract_from_page p :=
    Some (Spec.extract_from_page (Spec.block_list_fields c) (Spec.piece_text c) p);
  build_markdown := Spec.build_markdown (Spec.image_reference c);
  build_hybrid_docx := Spec.docx_builder c
|}.

(** ** Terms of the specification *)

(** A blank string has white space only. *)
Definition blank (s : pystr) : bool := forallb is_space s.

(** The container has no usable [pages] sequence: the field is missing,
    not a list, or an empty list. *)
Definition no_usable_pages (container : dict) : Prop :=
  ∀ p ps, container !! lit "pages" ≠ Some (PList (p :: ps)).

(** The field [k] of the container is a non-blank string [s]. *)
Definition usable_field (container : dict) (k s : pystr) : Prop :=
  container !! k = Some (PStr s) ∧ blank s = false.

(** The text of page [i] (counted from 1) under a title argument. *)
Definition titled (title : option pystr) (i : nat) (txt : pystr) : pystr :=
  match title with
  | Some t => if str_truthy t && (i =? 1)%nat then with_heading t txt else txt
  | None => txt
  end.

(** What [process_pdf] returns for the page records [pages]. *)
Definition process_result `{M : mistral_ocr} (resp : value) (pages : list value)
    (title : option pystr) (insert_page_breaks : bool) : ProcessResult :=
  let pages_text := extract_pages_text title 1 pages in
  {| result_response := resp; result_pages_text := pages_text;
     result_md_text :=
       build_markdown pages_text ∅ ∅ insert_page_breaks (13 # 2);
     result_num_pages := length pages |}.

(** ** Sample inputs

    Concrete choices, responses and worlds on which the definitions are
    evaluated in the examples below. *)

Definition sample_choices : Spec.Choices := {|
  Spec.data_url := λ mime b, lit "data:" ++ mime ++ lit ";base64," ++ b;
  Spec.block_list_fields := [lit "blocks"];
  Spec.piece_text := λ v,
    match v with
    | PStr s => s
    | PDict d => match d !! lit "text" with Some (PStr s) => s | _ => [] end
    | _ => []
    end;
  Spec.image_reference := λ a w,
    lit "![" ++ default [] (asset_caption a) ++ lit "](image)";
  Spec.docx_builder := λ md_text pages_text _ _ out_path _ _ fs,
    (Ok (), <[out_path := (λ txt, N.of_nat (length txt)) <$> pages_text]> fs)
|}.

Definition sample_module : mistral_ocr := spec_module sample_choices.

(** An OCR service that answers every request with status 200 and the
    JSON value [v]. *)
Definition answering (v : value) : requests := {|
  post := λ _ _ _ _, Ok {| status_code := 200; text := []; json := Ok v |}
|}.

Definition sample_config : Config := {|
  endpoint := lit "https://ocr.example/v1/ocr";
  api_key := lit "secret";
  model := lit "mistral-document-ai-2505"
|}.

Definition fresh_world : World :=
  {| session_state := initial_session; files := ∅; screen := [] |}.

(** The world once the OCR call has shown its spinner. *)
Definition after_ocr (w : World) : World :=
  {| session_state := session_state w; files := files w;
     screen := screen w
       ++ [st_spinner (lit "Processing PDF with  Doc Intelligence...")] |}.

(** A response without pages whose text fields are blank or not strings. *)
Definition blank_response : value :=
  PDict {[ lit "markdown" := PStr (lit "  ");
           lit "text" := PStr [10; 9];
           lit "content" := PNone ]}.

(** A response without pages in which every text field but [markdown] is
    usable. *)
Definition ordered_response : value :=
  PDict {[ lit "markdown" := PStr (lit " ");
           lit "raw_text" := PStr (lit "from raw_text");
           lit "text" := PStr (lit "from text");
           lit "content" := PStr (lit "from content");
           lit "full_text" := PStr (lit "from full_text") ]}.

(** A response whose pages sit under a [data] envelope: a page with
    markdown and text, an empty page, a value that is not a mapping, and a
    page with a block list. *)
Definition paged_response : value :=
  PDict {[ lit "data" :=
    PDict {[ lit "pages" := PList [
      PDict {[ lit "markdown" := PStr (lit "Intro text");
               lit "text" := PStr (lit "plain intro") ]};
      PDict ∅;
      PInt 7;
      PDict {[ lit "blocks" := PList [PStr (lit "Con"); PStr (lit "clusion")] ]}
    ] ]} ]}.

(** The page records of [paged_response]. *)
Definition sample_pages : list value :=
  [ PDict {[ lit "markdown" := PStr (lit "Intro text");
             lit "text" := PStr (lit "plain intro") ]};
    PDict ∅;
    PInt 7;
    PDict {[ lit "blocks" := PList [PStr (lit "Con"); PStr (lit "clusion")] ]} ].

(** The fields in which the extractor of the specification looks for
    text, and a page record that has none of them (a value that is not a
    mapping has no field at all). *)
Definition recognized_fields (c : Spec.Choices) : list pystr :=
  Spec.text_fields ++ Spec.block_list_fields c.

Definition lacks_recognized_fields (c : Spec.Choices) (p : value) : Prop :=
  match p with
  | PDict d => ∀ k, k ∈ recognized_fields c → d !! k = None
  | _ => True
  end.

(** A module whose DOCX builder always fails, leaving a partial file. *)
Definition failing_module : mistral_ocr := {|
  bytes_to_data_url := bytes_to_data_url (mistral_ocr := sample_module);
  unwrap_container := Spec.unwrap_container;
  extract_from_page := extract_from_page (mistral_ocr := sample_module);
  build_markdown := build_markdown (mistral_ocr := sample_module);
  build_hybrid_docx := λ _ _ _ _ out_path _ _ fs,
    (Raise (Exception "PackageNotFoundError" (lit "corrupt image")),
     <[out_path := [80; 75]]> fs)
|}.

Definition sample_tempfile : tempfile :=
  {| mkdtemp := λ _, [lit "tmp"; lit "tmpab12cd"] |}.

(** A world whose session holds the results of a conversion. *)
Definition converted_world : World :=
  {| session_state :=
       {| ocr_result := Some paged_response;
          pages_text := [lit "Intro text"; []; lit "Conclusion"];
          md_text := Some (lit "Intro text" ++ [10; 10] ++ lit "Conclusion");
          docx_path := None |};
     files := ∅;
     screen := [] |}.

Definition sample_secrets : Secrets :=
  SecretsFile {[ lit "mistral" :=
       {[ lit "ocr_endpoint" := lit "https://ocr.example/v1/ocr";
          lit "api_key" := lit "secret" ]} ]}.

(** A run in which a file is uploaded and the process button is pressed. *)
Definition process_inputs (title : pystr) : Inputs :=
  {| title_input := title; insert_page_breaks_input := true;
     uploaded_file := Some (lit "scan.pdf", [37; 80; 68; 70]);
     process_button := true |}.

(** A later run of the same session: the file is still there, the button
    is not pressed. *)
Definition idle_inputs : Inputs :=
  {| title_input := []; insert_page_breaks_input := true;
     uploaded_file := Some (lit "scan.pdf", [37; 80; 68; 70]);
     process_button := false |}.

(** ** Terms of the further properties *)

(** The world after the widgets [xs] have been put on the screen. *)
Definition shown (xs : list widget) (w : World) : World :=
  {| session_state := session_state w; files := files w;
     screen := screen w ++ xs |}.

(** Every run of the script [m] relates the world before to the world
    after by [R]. *)
Definition preserves {A : Type} (R : relation World) (m : script A) : Prop :=
  ∀ w r w', m w = (r, w') → R w w'.

(** The script only adds widgets: session state and files are as before. *)
Definition only_shows (w w' : World) : Prop :=
  session_state w' = session_state w ∧ files w' = files w
  ∧ screen w `prefix_of` screen w'.

(** The script adds widgets and may change files, not the session state. *)
Definition keeps_session (w w' : World) : Prop :=
  session_state w' = session_state w ∧ screen w `prefix_of` screen w'.

(** The script adds widgets and leaves the session's [docx_path] alone. *)
Definition keeps_docx_path (w w' : World) : Prop :=
  docx_path (session_state w') = docx_path (session_state w)
  ∧ screen w `prefix_of` screen w'.

(** The secrets hold the configuration [config]: a secrets file with a
    section [mistral] with the entries [ocr_endpoint] and [api_key], the
    model being the entry [model] or else the default. *)
Definition has_config (secrets : Secrets) (config : Config) : Prop :=
  ∃ sections m, secrets = SecretsFile sections
    ∧ sections !! lit "mistral" = Some m
    ∧ m !! lit "ocr_endpoint" = Some (endpoint config)
    ∧ m !! lit "api_key" = Some (api_key config)
    ∧ model config
      = default (lit "mistral-document-ai-2505") (m !! lit "model").

(** There is a secrets file, and it lacks the section [mistral] or one of
    its two required entries. *)
Definition lacks_config (secrets : Secrets) : Prop :=
  match secrets with
  | NoSecretsFile => False
  | SecretsFile sections =>
      match sections !! lit "mistral" with
      | None => True
      | Some m => m !! lit "ocr_endpoint" = None ∨ m !! lit "api_key" = None
      end
  end.

(** The headers of the OCR request (lines 48-51). *)
Definition ocr_headers (config : Config) : list (pystr * pystr) :=
  [ (lit "Authorization", lit "Bearer " ++ api_key config);
    (lit "Content-Type", lit "application/json") ].

(** The request [process_pdf] sends for a PDF (lines 63-70). *)
Definition ocr_request `{M : mistral_ocr} (config : Config) (pdf_bytes : bytes)
  : value :=
  ocr_payload config (bytes_to_data_url (lit "application/pdf") pdf_bytes).

Definition ocr_spinner : widget :=
  st_spinner (lit "Processing PDF with  Doc Intelligence...").

(** The expanders of lines 241-243, for the pages from number [i] on. *)
Fixpoint page_expanders (i : nat) (pages : list pystr) : list widget :=
  match pages with
  | [] => []
  | page :: rest =>
      st_expander (lit "Page " ++ str_of_Z (Z.of_nat i)) (i =? 1)%nat page
      :: page_expanders (S i) rest
  end.

(** A code point that UTF-8 cannot encode: a surrogate. *)
Definition is_surrogate (c : N) : bool := (55296 <=? c) && (c <=? 57343).

(** An OCR service whose connection fails. *)
Definition unreachable : requests := {|
  post := λ _ _ _ _,
    Raise (Exception "ConnectionError" (lit "connection refused"))
|}.

(** An OCR service that answers with the given status and body. *)
Definition answering_status (status : Z) (body : pystr) (v : value) : requests := {|
  post := λ _ _ _ _, Ok {| status_code := status; text := body; json := Ok v |}
|}.


(** A response with one page without text. *)
Definition empty_page_response : value :=
  PDict {[ lit "pages" := PList [PDict ∅] ]}.

(** A run in which no file is uploaded. *)
Definition no_file_inputs : Inputs :=
  {| title_input := lit "Report"; insert_page_breaks_input := true;
     uploaded_file := None; process_button := false |}.

(** The error shown for an answer with status 400 or more (line 54). *)
Definition api_error (r : Response) : widget :=
  st_error (lit "API Error " ++ str_of_Z (status_code r) ++ lit ": "
              ++ take 500 (text r)).

(** The body of a long error answer: 600 characters. *)
Definition long_body : pystr := repeat 120 600.

(** The world in which the session holds the result [r] of a conversion
    (lines 177-179); the session's [docx_path] is as before. *)
Definition stored (r : ProcessResult) (w : World) : World :=
  {| session_state :=
       {| ocr_result := Some (result_response r);
          pages_text := result_pages_text r;
          md_text := Some (result_md_text r);
          docx_path := docx_path (session_state w) |};
     files := files w;
     screen := screen w |}.

(** The widgets at the top of the page (lines 134-135). *)
Definition page_top : list widget :=
  [ st_title ([128196] ++ lit " Suvichaar Doc Intelligence Platform Test");
    st_markdown (lit "Upload a PDF file to extract text and convert it to Markdown and DOCX formats.") ].

(** The widgets of the sidebar (lines 143-149). *)
Definition sidebar : list widget :=
  [ st_header ([9881; 65039] ++ lit " Settings");
    st_divider;
    st_info ([128161] ++ lit " Configure your API credentials in `.streamlit/secrets.toml`") ].

(** The line about the uploaded file (line 161). *)
Definition file_info (name : pystr) (data : bytes) : widget :=
  st_info ([128206] ++ lit " File: " ++ name ++ lit " ("
             ++ format_thousands (N.of_nat (length data)) ++ lit " bytes)").

(** The success message of line 181. *)
Definition success_message (r : ProcessResult) : widget :=
  st_success ([9989] ++ lit " Successfully processed "
                ++ str_of_Z (Z.of_nat (result_num_pages r)) ++ lit " page(s)!").

(** The widgets that open the results (lines 189-190) and the spinner of
    [create_docx] (line 120). *)
Definition results_head : list widget :=
  [ st_divider; st_header ([128202] ++ lit " Results") ].

Definition docx_spinner : widget := st_spinner (lit "Generating DOCX file...").

(** The download buttons of lines 213-230. *)
Definition markdown_button (md : pystr) : widget :=
  st_download_button ([128229] ++ lit " Download Markdown") (DataStr md)
    (lit "output.md") (lit "text/markdown").

Definition docx_button (docx_bytes : bytes) : widget :=
  st_download_button ([128229] ++ lit " Download DOCX") (DataBytes docx_bytes)
    (lit "output.docx")
    (lit "application/vnd.openxmlformats-officedocument.wordprocessingml.document").

(** The widgets of the results when the DOCX has been built (lines
    209-247), [docx] being the file found at the destination, if any. *)
Definition results_body (s : SessionState) (md : pystr) (docx : option bytes)
  : list widget :=
  [markdown_button md]
  ++ match docx with Some b => [docx_button b] | None => [] end
  ++ [ st_markdown (lit "### Markdown Output");
       st_code md (lit "markdown");
       st_markdown (lit "### Extracted Pages") ]
  ++ page_expanders 1 (pages_text s)
  ++ [ st_markdown (lit "### Raw OCR Response"); st_json (ocr_result s) ].

(** A world whose session holds Markdown with a lone surrogate. *)
Definition surrogate_world : World :=
  {| session_state :=
       {| ocr_result := None; pages_text := [[104; 55296]];
          md_text := Some [104; 55296]; docx_path := None |};
     files := ∅;
     screen := [] |}.

(** * Properties *)

(** ** Strings *)

Example format_thousands_ex :
  format_thousands 1234567 = lit "1,234,567" /\ format_thousands 1005 = lit "1,005"
  /\ format_thousands 0 = lit "0" /\ format_thousands 999 = lit "999".
Proof. vm_compute. auto. Qed.

Lemma lstrip_nil (s : pystr) : lstrip s = [] ↔ blank s = true.
Proof.
  induction s as [|c s IH]; simpl; [done|].
  destruct (is_space c); simpl; [exact IH|]. split; discriminate.
Qed.

Lemma lstrip_snoc (s : pystr) (c : N) :
  is_space c = false → lstrip (s ++ [c]) ≠ [].
Proof.
  intros Hc. induction s as [|d s IH]; simpl.
  - rewrite Hc. discriminate.
  - destruct (is_space d); [exact IH | discriminate].
Qed.

Lemma lstrip_head (s : pystr) (c : N) (r : pystr) :
  lstrip s = c :: r → is_space c = false.
Proof.
  induction s as [|d s IH]; simpl; [discriminate|].
  destruct (is_space d) eqn:Hd; [exact IH|]. intros [= <- _]. exact Hd.
Qed.

(** [s.strip()] is empty exactly for a blank string. *)
Lemma strip_truthy (s : pystr) : str_truthy (strip s) = negb (blank s).
Proof.
  unfold strip, rstrip.
  destruct (lstrip s) as [|c r] eqn:Hl.
  - apply lstrip_nil in Hl. rewrite Hl. reflexivity.
  - assert (Hb : blank s = false).
    { destruct (blank s) eqn:Hb; [|done]. apply lstrip_nil in Hb. congruence. }
    rewrite Hb. simpl negb.
    pose proof (lstrip_head _ _ _ Hl) as Hc.
    pose proof (lstrip_snoc (rev r) c Hc) as Hne.
    change (rev (c :: r)) with (rev r ++ [c]).
    destruct (lstrip (rev r ++ [c])) as [|x l]; [done|].
    simpl. destruct (rev l ++ [x]) eqn:E; [|done].
    by apply app_eq_nil in E as [_ ?].
Qed.

(** ** The page records of a container (lines 78-89) *)

Lemma scan_top_level_blank (container : dict) (ks : list pystr) (top : pystr) :
  (∀ k s, k ∈ ks → container !! k = Some (PStr s) → blank s = true) →
  scan_top_level container ks top = top.
Proof.
  induction ks as [|k ks IH]; intros Hall; simpl; [done|].
  assert (Hrest : scan_top_level container ks top = top).
  { apply IH. intros k' s' Hin. apply Hall. by right. }
  destruct (container !! k) as [[| | | |s| |]|] eqn:Hk; try exact Hrest.
  rewrite strip_truthy, (Hall k s); [exact Hrest | by left | done].
Qed.

Lemma scan_top_level_first (container : dict) (pre post : list pystr)
    (k s top : pystr) :
  usable_field container k s →
  (∀ k' s', k' ∈ pre → container !! k' = Some (PStr s') → blank s' = true) →
  scan_top_level container (pre ++ k :: post) top = s.
Proof.
  intros [Hk Hs] Hpre. induction pre as [|k0 pre IH]; simpl.
  - by rewrite Hk, strip_truthy, Hs.
  - assert (Hrest : scan_top_level container (pre ++ k :: post) top = s).
    { apply IH. intros k' s' Hin. apply Hpre. by right. }
    destruct (container !! k0) as [[| | | |s0| |]|] eqn:Hk0; try exact Hrest.
    rewrite strip_truthy, (Hpre k0 s0); [exact Hrest | by left | done].
Qed.

(** Among the fields of [ks], one of which is usable, there is a first
    usable one. *)
Lemma first_usable_field (container : dict) (ks : list pystr) :
  (∃ k s, k ∈ ks ∧ usable_field container k s) →
  ∃ pre k post s,
    ks = pre ++ k :: post ∧ usable_field container k s ∧
    ∀ k' s', k' ∈ pre → container !! k' = Some (PStr s') → blank s' = true.
Proof.
  induction ks as [|k0 ks IH]; intros (k & s & Hin & Hu).
  - by apply elem_of_nil in Hin.
  - destruct (container !! k0) as [v|] eqn:Hk0.
    + destruct v as [| | | |s0| |] eqn:Hv.
      5: destruct (blank s0) eqn:Hb0.
      6: { exists [], k0, ks, s0. split; [done|]. split; [by split|].
           intros k' s' Hin'. by apply elem_of_nil in Hin'. }
      all: apply elem_of_cons in Hin as [->|Hin];
        [ destruct Hu as [Hu1 Hu2]; rewrite Hk0 in Hu1; simplify_eq; congruence |];
        destruct IH as (pre & k1 & post & s1 & -> & Hu1 & Hpre); [by eauto|];
        exists (k0 :: pre), k1, post, s1; split; [done|]; split; [done|];
        intros k' s' [->|Hin']%elem_of_cons Hk'; [|by eauto];
        rewrite Hk0 in Hk'; simplify_eq; done.
    + apply elem_of_cons in Hin as [->|Hin];
        [ destruct Hu as [Hu1 _]; congruence |].
      destruct IH as (pre & k1 & post & s1 & -> & Hu1 & Hpre); [by eauto|].
      exists (k0 :: pre), k1, post, s1. split; [done|]. split; [done|].
      intros k' s' [->|Hin']%elem_of_cons Hk'; [congruence | by eauto].
Qed.

Lemma normalize_pages_list (container : dict) (p : value) (ps : list value) :
  container !! lit "pages" = Some (PList (p :: ps)) →
  normalize_pages container = Ok (p :: ps).
Proof. intros H. unfold normalize_pages. by rewrite H. Qed.

Lemma normalize_pages_fallback (container : dict) :
  no_usable_pages container →
  normalize_pages container =
    let top := scan_top_level container top_level_fields [] in
    if blank top then Raise (ValueError no_content_message)
    else Ok [PDict {[ lit "markdown" := PStr top ]}].
Proof.
  intros Hno. unfold normalize_pages.
  destruct (container !! lit "pages") as [[| | | |s|[|p ps]|]|] eqn:Hp;
    try (cbv zeta; rewrite strip_truthy, negb_involutive; reflexivity).
  by destruct (Hno p ps).
Qed.

(** ** Page texts (lines 91-97) *)

Section Driver.

Context `{M : mistral_ocr} `{R : requests}.

Lemma extract_pages_text_length (title : option pystr) (i : nat)
    (pages : list value) :
  length (extract_pages_text title i pages) = length pages.
Proof.
  revert i. induction pages as [|p ps IH]; intros i; simpl; [done|].
  by rewrite IH.
Qed.

Lemma extract_pages_text_lookup (title : option pystr) (i j : nat)
    (pages : list value) (p : value) :
  pages !! j = Some p →
  extract_pages_text title i pages !! j = Some (titled title (i + j)%nat (page_text p)).
Proof.
  revert i j. induction pages as [|q ps IH]; intros i j Hj; [done|].
  destruct j as [|j]; simpl in *.
  - injection Hj as ->. by rewrite Nat.add_0_r.
  - rewrite (IH (S i) j Hj). by rewrite Nat.add_succ_r.
Qed.

(** Past the first page the title plays no role. *)
Lemma extract_pages_text_later (title : option pystr) (i : nat)
    (pages : list value) :
  (1 < i)%nat → extract_pages_text title i pages = extract_pages_text None i pages.
Proof.
  revert i. induction pages as [|p ps IH]; intros i Hi; simpl; [done|].
  rewrite IH by lia. f_equal.
  destruct title as [t|]; [|done].
  destruct (Nat.eqb_spec i 1); [lia|]. by rewrite andb_false_r.
Qed.

Lemma extract_pages_text_falsy (title : option pystr) (i : nat)
    (pages : list value) :
  opt_truthy title = false →
  extract_pages_text title i pages = extract_pages_text None i pages.
Proof.
  intros Ht. revert i. induction pages as [|p ps IH]; intros i; simpl; [done|].
  rewrite IH. f_equal. destruct title as [t|]; [|done].
  simpl in Ht. by rewrite Ht.
Qed.

Lemma extract_pages_text_title (t : pystr) (p : value) (ps : list value) :
  t ≠ [] →
  extract_pages_text (Some t) 1 (p :: ps) =
    with_heading t (page_text p) :: extract_pages_text None 2 ps.
Proof.
  intros Ht. simpl. destruct t as [|c t]; [done|]. simpl.
  f_equal. apply extract_pages_text_later. lia.
Qed.

(** ** One run of [process_pdf] *)

Lemma process_pdf_run (pdf_bytes : bytes) (config : Config)
    (title : option pystr) (insert_page_breaks : bool) (w w1 : World)
    (resp : value) :
  call_ocr pdf_bytes config w = (Ok resp, w1) →
  process_pdf pdf_bytes config title insert_page_breaks w =
    match normalize_pages (unwrap_container resp) with
    | Ok pages => (Ok (process_result resp pages title insert_page_breaks), w1)
    | Raise e => (Raise e, w1)
    end.
Proof.
  intros Hcall. unfold process_pdf, mbind, script_bind at 1.
  rewrite Hcall. unfold script_bind, lift_result.
  by destruct (normalize_pages (unwrap_container resp)).
Qed.

Lemma process_pdf_ocr_fails (pdf_bytes : bytes) (config : Config)
    (title : option pystr) (insert_page_breaks : bool) (w w1 : World)
    (e : exn) :
  call_ocr pdf_bytes config w = (Raise e, w1) →
  process_pdf pdf_bytes config title insert_page_breaks w = (Raise e, w1).
Proof.
  intros Hcall. unfold process_pdf, mbind, script_bind at 1. by rewrite Hcall.
Qed.

End Driver.

Section DriverClaims.

Context `{M : mistral_ocr} `{R : requests}.

Lemma normalize_pages_nonempty (container : dict) (pages : list value) :
  normalize_pages container = Ok pages → pages ≠ [].
Proof.
  unfold normalize_pages. set (page := PDict _).
  destruct (container !! lit "pages") as [[| | | |s|[|p ps]|]|];
    try (destruct (negb _); intros [= <-]; discriminate).
  intros [= <-]. discriminate.
Qed.

(** The OCR call shows widgets but touches neither the session nor the
    files. *)
Lemma call_ocr_frame (pdf_bytes : bytes) (config : Config) (w w1 : World)
    (r : result value) :
  call_ocr pdf_bytes config w = (r, w1) →
  session_state w1 = session_state w ∧ files w1 = files w.
Proof.
  unfold call_ocr, post_ocr_with_config, raise_for_status, mbind, script_bind,
    show, lift_result, raise, mret, script_ret.
  simpl.
  destruct (post _ _ _ _) as [resp|e]; simpl; [|by intros [= _ <-]].
  destruct (400 <=? status_code resp)%Z; simpl.
  - destruct (status_code resp <? 600)%Z; simpl; by intros [= _ <-].
  - by intros [= _ <-].
Qed.

(** C1 (amended): when the unwrapped container has no usable [pages]
    sequence and none of the fields [markdown], [full_text], [content],
    [text], [raw_text] is a non-blank string, [process_pdf] fails by
    raising [ValueError] with the message "No pages and no usable top-level
    text found in OCR response."; it returns no page texts and no Markdown,
    and the session state and the files are as before the call. *)
Theorem no_content_raises_ValueError (pdf_bytes : bytes) (config : Config)
    (title : option pystr) (insert_page_breaks : bool) (w w1 : World)
    (resp : value) :
  call_ocr pdf_bytes config w = (Ok resp, w1) →
  no_usable_pages (unwrap_container resp) →
  (∀ k s, k ∈ top_level_fields →
          unwrap_container resp !! k = Some (PStr s) → blank s = true) →
  process_pdf pdf_bytes config title insert_page_breaks w
    = (Raise (ValueError no_content_message), w1)
  ∧ exn_class (ValueError no_content_message) = "ValueError"%string
  ∧ session_state w1 = session_state w ∧ files w1 = files w.
Proof.
  intros Hcall Hno Hblank. split; [|split; [done|by eapply call_ocr_frame]].
  rewrite (process_pdf_run _ _ _ _ _ _ _ Hcall).
  rewrite (normalize_pages_fallback _ Hno). cbv zeta.
  by rewrite (scan_top_level_blank _ _ _ Hblank).
Qed.

(** C2: when the unwrapped container has no usable [pages] sequence but one
    of the fields [markdown], [full_text], [content], [text], [raw_text] is
    a non-blank string, the fields are tried in exactly this order and
    exactly one page record is made, [{"markdown": top}], where [top] is
    the value of the first field of this order that is a non-blank string
    (every field before it in [markdown], [full_text], [content], [text],
    [raw_text] is missing, not a string, or blank); with a non-blank
    [markdown] field, [top] is that field's value. *)
Theorem fallback_single_page (pdf_bytes : bytes) (config : Config)
    (title : option pystr) (insert_page_breaks : bool) (w w1 : World)
    (resp : value) :
  call_ocr pdf_bytes config w = (Ok resp, w1) →
  no_usable_pages (unwrap_container resp) →
  (∃ k s,
     k ∈ [lit "markdown"; lit "full_text"; lit "content"; lit "text";
          lit "raw_text"]
     ∧ usable_field (unwrap_container resp) k s) →
  ∃ pre k post top,
    [lit "markdown"; lit "full_text"; lit "content"; lit "text";
     lit "raw_text"] = pre ++ k :: post
    ∧ usable_field (unwrap_container resp) k top
    ∧ (∀ k' s', k' ∈ pre →
         unwrap_container resp !! k' = Some (PStr s') → blank s' = true)
    ∧ normalize_pages (unwrap_container resp)
        = Ok [PDict {[ lit "markdown" := PStr top ]}]
    ∧ (∃ r, process_pdf pdf_bytes config title insert_page_breaks w = (Ok r, w1)
         ∧ result_num_pages r = 1%nat
         ∧ result_pages_text r =
             [titled title 1
                (page_text (PDict {[ lit "markdown" := PStr top ]}))])
    ∧ (∀ m, usable_field (unwrap_container resp) (lit "markdown") m → top = m).
Proof.
  intros Hcall Hno Hex.
  change [lit "markdown"; lit "full_text"; lit "content"; lit "text";
          lit "raw_text"] with top_level_fields in *.
  destruct (first_usable_field _ _ Hex) as (pre & k & post & top & Hks & Hu & Hpre).
  exists pre, k, post, top.
  assert (Hn : normalize_pages (unwrap_container resp)
               = Ok [PDict {[ lit "markdown" := PStr top ]}]).
  { rewrite (normalize_pages_fallback _ Hno). cbv zeta.
    rewrite Hks, (scan_top_level_first _ _ _ _ _ _ Hu Hpre).
    by rewrite (proj2 Hu). }
  repeat split; try done; try apply Hu.
  - eexists. rewrite (process_pdf_run _ _ _ _ _ _ _ Hcall), Hn.
    split; [reflexivity|]. split; [reflexivity|].
    simpl. by destruct title.
  - intros m [Hm Hb]. destruct pre as [|k0 pre].
    + injection Hks as <- _. destruct Hu as [Hu _]. congruence.
    + injection Hks as <- _.
      rewrite (Hpre (lit "markdown") m) in Hb; [done | by left | done].
Qed.

(** C3: when the [pages] sequence of the unwrapped container is a non-empty
    list, [process_pdf] returns as many page texts as there are page
    records, entry [i] being the text of page record [i] (with the title
    heading on the first), whether or not that text is empty. *)
Theorem page_text_per_page (pdf_bytes : bytes) (config : Config)
    (title : option pystr) (insert_page_breaks : bool) (w w1 : World)
    (resp : value) (pages : list value) :
  call_ocr pdf_bytes config w = (Ok resp, w1) →
  unwrap_container resp !! lit "pages" = Some (PList pages) →
  pages ≠ [] →
  ∃ r, process_pdf pdf_bytes config title insert_page_breaks w = (Ok r, w1)
    ∧ length (result_pages_text r) = length pages
    ∧ result_num_pages r = length pages
    ∧ ∀ i p, pages !! i = Some p →
        result_pages_text r !! i = Some (titled title (S i) (page_text p)).
Proof.
  intros Hcall Hpages Hne. destruct pages as [|p ps]; [done|].
  eexists. rewrite (process_pdf_run _ _ _ _ _ _ _ Hcall).
  rewrite (normalize_pages_list _ _ _ Hpages).
  split; [reflexivity|]. cbn [process_result result_pages_text result_num_pages].
  split; [apply extract_pages_text_length|]. split; [done|].
  intros i q Hq. by rewrite (extract_pages_text_lookup _ 1 i _ _ Hq).
Qed.

(** C4: for a provided (non-empty) title [t], the page texts are those of
    the run without title, except that the first one is "# t", a blank
    line, and then the text the first page has without title; the other
    pages are unchanged. *)
Theorem title_on_first_page_only (pdf_bytes : bytes) (config : Config)
    (insert_page_breaks : bool) (w w1 : World) (t : pystr)
    (r0 : ProcessResult) :
  t ≠ [] →
  process_pdf pdf_bytes config None insert_page_breaks w = (Ok r0, w1) →
  ∃ first rest r,
    result_pages_text r0 = first :: rest
    ∧ process_pdf pdf_bytes config (Some t) insert_page_breaks w = (Ok r, w1)
    ∧ result_pages_text r = (lit "# " ++ t ++ [10; 10] ++ first) :: rest.
Proof.
  intros Ht Hrun.
  destruct (call_ocr pdf_bytes config w) as [[resp|e] w'] eqn:Hcall.
  2: { by rewrite (process_pdf_ocr_fails _ _ _ _ _ _ _ Hcall) in Hrun. }
  rewrite (process_pdf_run _ _ _ _ _ _ _ Hcall) in Hrun.
  rewrite (process_pdf_run _ _ _ _ _ _ _ Hcall).
  destruct (normalize_pages (unwrap_container resp)) as [pages|e] eqn:Hn;
    [|done].
  injection Hrun as <- <-.
  destruct pages as [|p ps]; [by apply normalize_pages_nonempty in Hn|].
  exists (page_text p), (extract_pages_text None 2 ps). eexists.
  split; [reflexivity|]. split; [reflexivity|].
  cbn [process_result result_pages_text].
  by rewrite extract_pages_text_title.
Qed.

(** C10: an empty title is no title: [process_pdf] called with the empty
    string as title does what it does with the title [None], so no
    heading is put on the first page and the page texts are the same; the
    script passes [None] for an empty title input. *)
Theorem empty_title_is_no_title (pdf_bytes : bytes) (config : Config)
    (insert_page_breaks : bool) (w : World) :
  process_pdf pdf_bytes config (Some []) insert_page_breaks w
    = process_pdf pdf_bytes config None insert_page_breaks w
  ∧ title_argument [] = None
  ∧ ∀ i pages, extract_pages_text (Some []) i pages
               = extract_pages_text None i pages.
Proof.
  assert (Hex : ∀ i pages, extract_pages_text (Some []) i pages
                           = extract_pages_text None i pages).
  { intros. by apply extract_pages_text_falsy. }
  split; [|by split].
  destruct (call_ocr pdf_bytes config w) as [[resp|e] w'] eqn:Hcall.
  - rewrite !(process_pdf_run _ _ _ _ _ _ _ Hcall).
    destruct (normalize_pages (unwrap_container resp)); [|done].
    unfold process_result. by rewrite Hex.
  - by rewrite !(process_pdf_ocr_fails _ _ _ _ _ _ _ Hcall).
Qed.

End DriverClaims.

(** ** The driver on the sample inputs *)

Example process_pdf_paged :
  fst (process_pdf (M := sample_module) (R := answering paged_response)
         [] sample_config (Some (lit "Report")) true fresh_world)
  = Ok {| result_response := paged_response;
          result_pages_text :=
            [lit "# Report" ++ [10; 10] ++ lit "Intro text"; []; [];
             lit "Conclusion"];
          result_md_text :=
            lit "# Report" ++ [10; 10] ++ lit "Intro text" ++ [10; 10]
            ++ lit "<page-break>" ++ [10; 10] ++ lit "<page-break>"
            ++ [10; 10] ++ lit "<page-break>" ++ [10; 10] ++ lit "Conclusion";
          result_num_pages := 4 |}.
Proof. vm_compute. reflexivity. Qed.

Lemma no_content_raises_ValueError_witness :
  process_pdf (M := sample_module) (R := answering blank_response)
    [] sample_config None true fresh_world
    = (Raise (ValueError no_content_message), after_ocr fresh_world)
  ∧ exn_class (ValueError no_content_message) = "ValueError"%string
  ∧ session_state (after_ocr fresh_world) = session_state fresh_world
  ∧ files (after_ocr fresh_world) = files fresh_world.
Proof.
  apply (no_content_raises_ValueError (M := sample_module)
           (R := answering blank_response) [] sample_config None true
           fresh_world (after_ocr fresh_world) blank_response).
  - reflexivity.
  - intros p ps. vm_compute. discriminate.
  - intros k s Hin Hk. apply list_elem_of_In in Hin. simpl in Hin.
    destruct Hin as [<-|[<-|[<-|[<-|[<-|[]]]]]]; vm_compute in Hk;
      try discriminate; injection Hk as <-; reflexivity.
Defined.

(** C1, as stated, fails: on a container without pages whose text fields
    are blank, the exception raised is a [ValueError], not a
    [NoContentError]. *)
Lemma no_content_error_class_counterexample :
  let container := unwrap_container (mistral_ocr := sample_module) blank_response in
  no_usable_pages container
  ∧ (∀ k s, k ∈ top_level_fields →
            container !! k = Some (PStr s) → blank s = true)
  ∧ ∃ e w1,
      process_pdf (M := sample_module) (R := answering blank_response)
        [] sample_config None true fresh_world = (Raise e, w1)
      ∧ exn_class e = "ValueError"%string
      ∧ exn_class e ≠ "NoContentError"%string.
Proof.
  split; [|split].
  - intros p ps. vm_compute. discriminate.
  - intros k s Hin Hk. apply list_elem_of_In in Hin. simpl in Hin.
    destruct Hin as [<-|[<-|[<-|[<-|[<-|[]]]]]]; vm_compute in Hk;
      try discriminate; injection Hk as <-; reflexivity.
  - exists (ValueError no_content_message), (after_ocr fresh_world).
    split; [reflexivity|]. split; [reflexivity|]. discriminate.
Qed.

Lemma fallback_single_page_witness :
  ∃ r, process_pdf (M := sample_module) (R := answering ordered_response)
         [] sample_config None true fresh_world = (Ok r, after_ocr fresh_world)
    ∧ result_num_pages r = 1%nat
    ∧ result_pages_text r = [lit "from full_text"].
Proof.
  destruct (fallback_single_page (M := sample_module)
              (R := answering ordered_response) [] sample_config None true
              fresh_world (after_ocr fresh_world) ordered_response)
    as (pre & k & post & top & Hks & Hu & Hpre & Hn & (r & Hrun & Hnum & Htxt) & Hmd).
  - reflexivity.
  - intros p ps. vm_compute. discriminate.
  - exists (lit "raw_text"), (lit "from raw_text"). split.
    + apply list_elem_of_In. simpl. auto 10.
    + split; reflexivity.
  - exists r. split; [exact Hrun|]. split; [exact Hnum|].
    rewrite Htxt. vm_compute in Hn. injection Hn as <-. reflexivity.
Defined.

(** The order of the fields, one step at a time: each field wins over all
    the later ones. *)
Example fallback_order :
  let container (ks : list pystr) : dict :=
    list_to_map ((λ k, (k, PStr (lit "from " ++ k))) <$> ks) in
  normalize_pages (container [lit "raw_text"; lit "text"; lit "content";
                              lit "full_text"; lit "markdown"])
  = Ok [PDict {[ lit "markdown" := PStr (lit "from markdown") ]}]
  ∧ normalize_pages (container [lit "raw_text"; lit "text"; lit "content";
                                lit "full_text"])
    = Ok [PDict {[ lit "markdown" := PStr (lit "from full_text") ]}]
  ∧ normalize_pages (container [lit "raw_text"; lit "text"; lit "content"])
    = Ok [PDict {[ lit "markdown" := PStr (lit "from content") ]}]
  ∧ normalize_pages (container [lit "raw_text"; lit "text"])
    = Ok [PDict {[ lit "markdown" := PStr (lit "from text") ]}]
  ∧ normalize_pages (container [lit "raw_text"])
    = Ok [PDict {[ lit "markdown" := PStr (lit "from raw_text") ]}].
Proof. vm_compute. auto 10. Qed.

Lemma page_text_per_page_witness :
  ∃ r, process_pdf (M := sample_module) (R := answering paged_response)
         [] sample_config (Some (lit "Report")) true fresh_world
       = (Ok r, after_ocr fresh_world)
    ∧ length (result_pages_text r) = 4%nat
    ∧ result_pages_text r !! 1%nat = Some []
    ∧ result_pages_text r !! 3%nat = Some (lit "Conclusion").
Proof.
  destruct (page_text_per_page (M := sample_module)
              (R := answering paged_response) [] sample_config
              (Some (lit "Report")) true fresh_world (after_ocr fresh_world)
              paged_response sample_pages)
    as (r & Hrun & Hlen & Hnum & Hpages).
  - reflexivity.
  - reflexivity.
  - discriminate.
  - exists r. split; [exact Hrun|]. split; [exact Hlen|]. split.
    + refine (eq_trans (Hpages 1%nat (PDict ∅) eq_refl) _). reflexivity.
    + refine (eq_trans (Hpages 3%nat _ eq_refl) _). vm_compute. reflexivity.
Defined.

Lemma title_on_first_page_only_witness :
  ∃ r, process_pdf (M := sample_module) (R := answering paged_response)
         [] sample_config (Some (lit "Report")) false fresh_world
       = (Ok r, after_ocr fresh_world)
    ∧ result_pages_text r =
        [lit "# Report" ++ [10; 10] ++ lit "Intro text"; []; [];
         lit "Conclusion"].
Proof.
  destruct (title_on_first_page_only (M := sample_module)
              (R := answering paged_response) [] sample_config false
              fresh_world (after_ocr fresh_world) (lit "Report")
              (process_result (M := sample_module) paged_response sample_pages
                 None false))
    as (first & rest & r & H0 & Hrun & Htxt).
  - discriminate.
  - reflexivity.
  - exists r. split; [exact Hrun|]. rewrite Htxt.
    vm_compute in H0. injection H0 as <- <-. reflexivity.
Defined.

(** ** The page text extractor of the specification *)

Lemma first_text_field_none (p : dict) (ks : list pystr) :
  (∀ k s, k ∈ ks → p !! k ≠ Some (PStr s)) → Spec.first_text_field p ks = None.
Proof.
  induction ks as [|k ks IH]; intros Hall; simpl; [done|].
  assert (Hrest : Spec.first_text_field p ks = None).
  { apply IH. intros k' s' Hin. apply Hall. by right. }
  destruct (p !! k) as [[| | | |s| |]|] eqn:Hk; try exact Hrest.
  destruct (Hall k s); [by left | done].
Qed.

Lemma first_text_field_first (p : dict) (pre post : list pystr) (k s : pystr) :
  p !! k = Some (PStr s) →
  (∀ k' s', k' ∈ pre → p !! k' ≠ Some (PStr s')) →
  Spec.first_text_field p (pre ++ k :: post) = Some s.
Proof.
  intros Hk Hpre. induction pre as [|k0 pre IH]; simpl; [by rewrite Hk|].
  assert (Hrest : Spec.first_text_field p (pre ++ k :: post) = Some s).
  { apply IH. intros k' s' Hin. apply Hpre. by right. }
  destruct (p !! k0) as [[| | | |s0| |]|] eqn:Hk0; try exact Hrest.
  destruct (Hpre k0 s0); [by left | done].
Qed.

Lemma first_block_list_none (p : dict) (ks : list pystr) :
  (∀ k, k ∈ ks → p !! k = None) → Spec.first_block_list p ks = None.
Proof.
  induction ks as [|k ks IH]; intros Hall; simpl; [done|].
  rewrite (Hall k) by by left. apply IH. intros k' Hin. apply Hall. by right.
Qed.

(** The precedence of the text fields: the first field of the table that
    holds a string gives the text. *)
Lemma extract_from_page_precedence (c : Spec.Choices) (p : dict)
    (pre post : list pystr) (k s : pystr) :
  Spec.text_fields = pre ++ k :: post →
  p !! k = Some (PStr s) →
  (∀ k' s', k' ∈ pre → p !! k' ≠ Some (PStr s')) →
  Spec.extract_from_page (Spec.block_list_fields c) (Spec.piece_text c) p = s.
Proof.
  intros Hks Hk Hpre. unfold Spec.extract_from_page.
  by rewrite Hks, (first_text_field_first _ _ _ _ _ Hk Hpre).
Qed.

(** Without a string in a text field, the pieces of the first block list
    are concatenated in order. *)
Lemma extract_from_page_blocks (c : Spec.Choices) (p : dict) (k : pystr)
    (pre post : list pystr) (l : list value) :
  (∀ k' s, k' ∈ Spec.text_fields → p !! k' ≠ Some (PStr s)) →
  Spec.block_list_fields c = pre ++ k :: post →
  p !! k = Some (PList l) →
  (∀ k', k' ∈ pre → p !! k' = None) →
  Spec.extract_from_page (Spec.block_list_fields c) (Spec.piece_text c) p
    = concat (map (Spec.piece_text c) l).
Proof.
  intros Htext Hks Hk Hpre. unfold Spec.extract_from_page.
  rewrite (first_text_field_none _ _ Htext), Hks. clear Hks.
  induction pre as [|k0 pre IH]; simpl; [by rewrite Hk|].
  rewrite (Hpre k0) by by left. apply IH. intros k' Hin. apply Hpre. by right.
Qed.

Lemma first_text_field_py_dict (d : dict) (ks : list pystr) :
  Spec.first_text_field_py (PDict d) ks = Ok (Spec.first_text_field d ks).
Proof.
  induction ks as [|k ks IH]; simpl; [done|].
  destruct (d !! k) as [[]|]; done.
Qed.

Lemma first_block_list_py_dict (d : dict) (ks : list pystr) :
  Spec.first_block_list_py (PDict d) ks = Ok (Spec.first_block_list d ks).
Proof.
  induction ks as [|k ks IH]; simpl; [done|].
  destruct (d !! k) as [[]|]; done.
Qed.

(** On a mapping the Python-level extractor returns the text of the
    record. *)
Lemma extract_from_page_py_dict (blocks : list pystr)
    (piece_text : value → pystr) (d : dict) :
  Spec.extract_from_page_py blocks piece_text (PDict d)
  = Ok (Some (Spec.extract_from_page blocks piece_text d)).
Proof.
  unfold Spec.extract_from_page_py, Spec.search_page_py, Spec.extract_from_page.
  rewrite first_text_field_py_dict.
  destruct (Spec.first_text_field d Spec.text_fields); [done|].
  rewrite first_block_list_py_dict.
  by destruct (Spec.first_block_list d blocks).
Qed.

Lemma extract_from_page_lacking (c : Spec.Choices) (d : dict) :
  (∀ k, k ∈ recognized_fields c → d !! k = None) →
  Spec.extract_from_page (Spec.block_list_fields c) (Spec.piece_text c) d = [].
Proof.
  intros Hd. unfold Spec.extract_from_page.
  rewrite first_text_field_none, first_block_list_none; [done| |].
  - intros k Hin. apply Hd, elem_of_app. by right.
  - intros k s Hin. rewrite Hd; [done|]. apply elem_of_app. by left.
Qed.

(** C5: page text extraction never raises.  The extractor, with the
    exception its lookups raise on a value that is not a mapping, returns
    a string for every value, mapping or not; so does line 94 of the
    driver, which calls it, and the string is the text of the page record.
    For a record with none of the recognized fields, and for a value that
    is not a mapping, the string is empty.  Line 94 hands the extractor a
    mapping whatever the record is: with any extractor that does not raise
    on mappings it does not raise, and a value that is not a mapping is
    treated as the empty mapping. *)
Theorem page_text_never_fails (c : Spec.Choices) (p : value) :
  (∃ s : pystr,
     Spec.extract_from_page_py (Spec.block_list_fields c) (Spec.piece_text c) p
     = Ok (Some s)
     ∧ (lacks_recognized_fields c p → s = []))
  ∧ (∃ s : pystr,
       page_text_py
         (Spec.extract_from_page_py (Spec.block_list_fields c) (Spec.piece_text c))
         p = Ok s
       ∧ page_text (M := spec_module c) p = s
       ∧ (lacks_recognized_fields c p → s = [])
       ∧ ((∀ d, p ≠ PDict d) → s = []))
  ∧ (∀ extract : value → result (option pystr),
       (∀ d : dict, ∃ o, extract (PDict d) = Ok o) →
       (∃ s : pystr, page_text_py extract p = Ok s)
       ∧ ((∀ d, p ≠ PDict d) →
            page_text_py extract p = page_text_py extract (PDict ∅))).
Proof.
  assert (Hd : lacks_recognized_fields c p →
               ∀ k, k ∈ recognized_fields c → dict_or_empty p !! k = None).
  { intros Hlack. destruct p; try (intros; apply lookup_empty). exact Hlack. }
  split; [|split].
  - destruct p as [| | | | | |d];
      try (exists []; split; [reflexivity | done]).
    eexists. split; [apply extract_from_page_py_dict|].
    intros Hlack. by apply extract_from_page_lacking.
  - eexists. unfold page_text_py. rewrite extract_from_page_py_dict.
    split; [reflexivity|]. split; [reflexivity|]. split.
    + intros Hlack. by apply extract_from_page_lacking, Hd.
    + intros Hp. apply extract_from_page_lacking.
      destruct p; try (intros; apply lookup_empty). by destruct (Hp d).
  - intros extract Hex. split.
    + unfold page_text_py. destruct (Hex (dict_or_empty p)) as [[s|] ->]; by eexists.
    + intros Hp. unfold page_text_py. destruct p; try done. by destruct (Hp d).
Qed.

Lemma page_text_never_fails_witness :
  page_text_py
    (Spec.extract_from_page_py (Spec.block_list_fields sample_choices)
       (Spec.piece_text sample_choices)) (PInt 7) = Ok []
  ∧ Spec.extract_from_page_py (Spec.block_list_fields sample_choices)
      (Spec.piece_text sample_choices)
      (PDict {[ lit "page_number" := PInt 2; lit "image" := PNone ]})
    = Ok (Some [])
  ∧ page_text_py (λ v, Spec.first_text_field_py v Spec.text_fields) (PList [])
    = Ok [].
Proof.
  split; [|split].
  - destruct (proj1 (proj2 (page_text_never_fails sample_choices (PInt 7))))
      as (s & Hrun & _ & Hs & _).
    rewrite Hrun, (Hs I). reflexivity.
  - destruct (proj1 (page_text_never_fails sample_choices
                (PDict {[ lit "page_number" := PInt 2; lit "image" := PNone ]})))
      as (s & Hrun & Hs).
    rewrite Hrun, Hs; [reflexivity|].
    intros k Hin. apply list_elem_of_In in Hin. simpl in Hin.
    destruct Hin as [<-|[<-|[<-|[<-|[]]]]]; reflexivity.
  - destruct (proj2 (proj2 (page_text_never_fails sample_choices (PList [])))
                (λ v, Spec.first_text_field_py v Spec.text_fields))
      as [_ Hempty].
    + intros d. rewrite first_text_field_py_dict. by eexists.
    + rewrite Hempty; [reflexivity|]. intros d. discriminate.
Defined.

(** What the test of line 94 is for: the searches of the extractor raise
    on a value that is not a mapping, and line 94 keeps such a value from
    them. *)
Example search_page_py_raises :
  Spec.search_page_py [lit "blocks"] (λ _, []) (PInt 7)
  = Raise (AttributeError (lit "object has no attribute 'get'"))
  ∧ page_text_py (Spec.search_page_py [lit "blocks"] (λ _, [])) (PInt 7) = Ok [].
Proof. split; reflexivity. Qed.

(** C6: a page record with a [markdown] field and a [text] field has the
    value of [markdown] as its text; the table of text fields is
    [markdown], [text], [content], in this order. *)
Theorem markdown_before_text (c : Spec.Choices) (p : dict) (m t : pystr) :
  p !! lit "markdown" = Some (PStr m) →
  p !! lit "text" = Some (PStr t) →
  Spec.extract_from_page (Spec.block_list_fields c) (Spec.piece_text c) p = m
  ∧ page_text (M := spec_module c) (PDict p) = m
  ∧ Spec.text_fields = [lit "markdown"; lit "text"; lit "content"].
Proof.
  intros Hm Ht.
  assert (He : Spec.extract_from_page (Spec.block_list_fields c)
                 (Spec.piece_text c) p = m).
  { apply (extract_from_page_precedence c p [] [lit "text"; lit "content"]
             (lit "markdown") m); [done | done |].
    intros k' s' Hin. by apply elem_of_nil in Hin. }
  split; [exact He|]. split; [|done].
  unfold page_text. cbn [extract_from_page spec_module dict_or_empty].
  by rewrite He.
Qed.

Lemma markdown_before_text_witness :
  page_text (M := sample_module)
    (PDict {[ lit "markdown" := PStr (lit "Intro text");
              lit "text" := PStr (lit "plain intro") ]})
  = lit "Intro text".
Proof.
  refine (proj1 (proj2 (markdown_before_text sample_choices
           {[ lit "markdown" := PStr (lit "Intro text");
              lit "text" := PStr (lit "plain intro") ]}
           (lit "Intro text") (lit "plain intro") _ _))); reflexivity.
Defined.

(** ** Counting a marker in joined pieces *)

Section Occurrences.

(** A marker that is not empty and holds no line feed. *)
Variable m : pystr.
Hypothesis m_not_empty : m ≠ [].
Hypothesis m_one_line : forallb (λ c, negb (c =? 10)) m = true.

Lemma starts_with_line_end (s t : pystr) :
  starts_with m (s ++ 10 :: t) = starts_with m s.
Proof using m_one_line.
  clear m_not_empty. revert s m_one_line.
  induction m as [|c m' IH]; intros s Hm; [by destruct s|].
  simpl in Hm. apply andb_prop in Hm as [Hc Hm'].
  destruct s as [|d s]; simpl.
  - apply negb_true_iff in Hc. by rewrite Hc.
  - by rewrite IH.
Qed.

Lemma occurrences_nil : occurrences m [] = 0%nat.
Proof using m_not_empty. clear m_one_line. by destruct m. Qed.

Lemma occurrences_line_feed (t : pystr) :
  occurrences m (10 :: t) = occurrences m t.
Proof using m_not_empty m_one_line.
  cbn [occurrences].
  change (10 :: t) with ([] ++ 10 :: t). rewrite starts_with_line_end.
  clear m_one_line. by destruct m.
Qed.

Lemma occurrences_app_line (s t : pystr) :
  occurrences m (s ++ 10 :: t) = (occurrences m s + occurrences m t)%nat.
Proof using m_not_empty m_one_line.
  induction s as [|d s IH].
  - cbn [app]. by rewrite occurrences_nil, occurrences_line_feed.
  - change ((d :: s) ++ 10 :: t) with (d :: (s ++ 10 :: t)).
    cbn [occurrences]. rewrite IH.
    change (d :: (s ++ 10 :: t)) with ((d :: s) ++ 10 :: t).
    rewrite starts_with_line_end. lia.
Qed.

(** No occurrence of the marker lies across a blank line: its number in
    the joined pieces is the sum of its numbers in the pieces. *)
Lemma occurrences_join (parts : list pystr) :
  occurrences m (join [10; 10] parts) = sum_list_with (occurrences m) parts.
Proof using m_not_empty m_one_line.
  induction parts as [|p rest IH]; [apply occurrences_nil|].
  destruct rest as [|q rest].
  - simpl. lia.
  - change (join [10; 10] (p :: q :: rest))
      with (p ++ 10 :: 10 :: join [10; 10] (q :: rest)).
    rewrite occurrences_app_line, occurrences_line_feed, IH.
    reflexivity.
Qed.

End Occurrences.

(** ** The Markdown assembler of the specification *)

Lemma marker_occurrences_join (parts : list pystr) :
  occurrences Spec.page_break_marker (join Spec.blank_line parts)
  = sum_list_with (occurrences Spec.page_break_marker) parts.
Proof. by apply occurrences_join. Qed.

(** Without images, the pieces of the pages from number [i] on hold one
    marker for every page that is not the last of the [n] pages. *)
Lemma markdown_parts_markers (image_reference : Asset → Q → pystr)
    (n i : nat) (pages_text : list pystr) (insert_page_breaks : bool)
    (w : Q) :
  (∀ txt, txt ∈ pages_text → occurrences Spec.page_break_marker txt = 0%nat) →
  sum_list_with (occurrences Spec.page_break_marker)
    (Spec.markdown_parts image_reference n i pages_text ∅ ∅
       insert_page_breaks w)
  = if insert_page_breaks then (length pages_text `min` (n - i))%nat else 0%nat.
Proof.
  revert i. induction pages_text as [|txt rest IH]; intros i Hfree.
  - by destruct insert_page_breaks.
  - cbn [Spec.markdown_parts]. rewrite sum_list_with_app, IH.
    2: { intros t Hin. apply Hfree. by right. }
    unfold Spec.page_parts. rewrite !lookup_empty. cbn [default map].
    assert (Htxt : occurrences Spec.page_break_marker txt = 0%nat)
      by (apply Hfree; by left).
    destruct insert_page_breaks; cbn [andb].
    + destruct (Nat.ltb_spec i n) as [Hlt|Hge];
        destruct (str_truthy txt); cbn [app sum_list_with];
        rewrite ?Htxt; cbn [length];
        change (occurrences Spec.page_break_marker Spec.page_break_marker)
          with 1%nat; lia.
    + destruct (str_truthy txt); cbn [app sum_list_with];
        rewrite ?Htxt; lia.
Qed.

(** The assembler of the specification on page texts in which its marker
    does not occur, without images: the Markdown of the pages holds the
    marker once for every page but the last when page breaks are on, and
    not at all when they are off. *)
Lemma marker_free_pages_markers (image_reference : Asset → Q → pystr)
    (pages_text : list pystr) (insert_page_breaks : bool) (w : Q) :
  (∀ txt, txt ∈ pages_text → occurrences Spec.page_break_marker txt = 0%nat) →
  occurrences Spec.page_break_marker
    (Spec.build_markdown image_reference pages_text ∅ ∅ insert_page_breaks w)
  = if insert_page_breaks then (length pages_text - 1)%nat else 0%nat.
Proof.
  intros Hfree. unfold Spec.build_markdown.
  rewrite marker_occurrences_join, markdown_parts_markers by done.
  destruct insert_page_breaks; lia.
Qed.

(** The example of section 8 of the specification. *)
Example build_markdown_report :
  build_markdown (mistral_ocr := sample_module)
    [lit "# Report" ++ [10; 10] ++ lit "Intro text"; []; lit "Conclusion"]
    ∅ ∅ true (13 # 2)
  = lit "# Report" ++ [10; 10] ++ lit "Intro text" ++ [10; 10]
    ++ lit "<page-break>" ++ [10; 10] ++ lit "<page-break>" ++ [10; 10]
    ++ lit "Conclusion".
Proof. vm_compute. reflexivity. Qed.

(** The assembler of the specification emits a page text verbatim, also
    one that holds its marker. *)
Example marker_in_page_text :
  let pages_text := [lit "<page-break>"; lit "x"] in
  occurrences Spec.page_break_marker
    (build_markdown (mistral_ocr := sample_module) pages_text ∅ ∅ false (13 # 2))
  = 1%nat
  ∧ occurrences Spec.page_break_marker
      (build_markdown (mistral_ocr := sample_module) pages_text ∅ ∅ true (13 # 2))
    = 2%nat.
Proof. split; reflexivity. Qed.

(** ** The DOCX step of the script (lines 115-131 and 189-259) *)

Section Results.

Context `{M : mistral_ocr} `{T : tempfile}.

Lemma create_docx_fails (md : pystr) (pages : list pystr) (dir : path)
    (breaks : bool) (w : World) (e : exn) (fs' : FS) :
  build_hybrid_docx md pages ∅ ∅ (path_join dir (lit "output.docx")) breaks
    (13 # 2) (files w) = (Raise e, fs') →
  create_docx md pages dir breaks w
  = (Raise e,
     {| session_state := session_state w; files := fs';
        screen := screen w ++ [st_spinner (lit "Generating DOCX file...")] |}).
Proof.
  intros Hb. unfold create_docx, mbind, script_bind, show, lift_files. simpl.
  by rewrite Hb.
Qed.

(** Whatever happens in the block, nothing is left below the temporary
    directory when the block has been left. *)
Lemma with_TemporaryDirectory_cleans {A : Type} (mk : FS → path)
    (body : path → script A) (w w' : World) (r : result A) (p : path) :
  with_TemporaryDirectory mk body w = (r, w') →
  mk (files w) `prefix_of` p →
  files w' !! p = None.
Proof.
  unfold with_TemporaryDirectory. destruct (body _ w) as [r0 w0].
  intros [= <- <-] Hp. cbn [files]. unfold remove_tree.
  apply map_lookup_filter_None. right. intros b _ Hnot. by apply Hnot.
Qed.

(** After the results step no file is left below the temporary directory,
    whether the DOCX builder has failed or not and whatever it has
    written. *)
Lemma show_results_cleans (breaks : bool) (w w' : World) (r : result unit)
    (p : path) :
  show_results breaks w = (r, w') →
  mkdtemp (files w) `prefix_of` p →
  files w' !! p = None.
Proof.
  unfold show_results, mbind, script_bind at 1 2, show at 1 2.
  cbn beta iota. intros Hrun Hp.
  by apply (with_TemporaryDirectory_cleans _ _ _ _ _ _ Hrun).
Qed.

(** C9: when the session holds Markdown and the DOCX builder raises an
    exception, the results step ends normally, the session state (with the
    Markdown string and the page texts) is unchanged, and the last widget
    on the screen is the download button "Download Markdown (DOCX failed)"
    carrying that Markdown string. *)
Theorem docx_failure_keeps_markdown (breaks : bool) (w : World)
    (md : pystr) (encoded : bytes) (cls : string) (msg : pystr) :
  md_text (session_state w) = Some md →
  utf8_encode md = Ok encoded →
  (build_hybrid_docx md (pages_text (session_state w)) ∅ ∅
     (path_join (mkdtemp (files w)) (lit "output.docx")) breaks (13 # 2)
     (<[path_join (mkdtemp (files w)) (lit "output.md") := encoded]> (files w))).1
    = Raise (Exception cls msg) →
  ∃ w',
    show_results breaks w = (Ok (), w')
    ∧ session_state w' = session_state w
    ∧ md_text (session_state w') = Some md
    ∧ last (screen w')
      = Some (st_download_button markdown_failed_label (DataStr md)
                (lit "output.md") (lit "text/markdown"))
    ∧ st_error ([10060] ++ lit " Error creating DOCX: " ++ msg) ∈ screen w'.
Proof.
  intros Hmd Henc Hfail.
  destruct w as [[ocr pages mdo docx] fs scr]. simpl in Hmd, Hfail. subst mdo.
  unfold show_results, with_TemporaryDirectory, try_except, session_md_text,
    write_text, create_docx, mbind, script_bind, mret, script_ret, show,
    get_session, get_files, put_files, lift_result, lift_files, raise.
  simpl. rewrite Henc. simpl.
  destruct (build_hybrid_docx _ _ _ _ _ _ _ _) as [r fs'].
  simpl in Hfail. subst r. simpl.
  eexists. split; [reflexivity|]. simpl. split; [done|]. split; [done|].
  split.
  - by rewrite last_snoc.
  - rewrite !elem_of_app, !list_elem_of_singleton. auto 10.
Qed.

End Results.

Lemma docx_failure_keeps_markdown_witness :
  ∃ w',
    show_results (M := failing_module) (T := sample_tempfile) true
      converted_world = (Ok (), w')
    ∧ md_text (session_state w')
      = Some (lit "Intro text" ++ [10; 10] ++ lit "Conclusion")
    ∧ last (screen w')
      = Some (st_download_button markdown_failed_label
                (DataStr (lit "Intro text" ++ [10; 10] ++ lit "Conclusion"))
                (lit "output.md") (lit "text/markdown")).
Proof.
  destruct (docx_failure_keeps_markdown (M := failing_module)
              (T := sample_tempfile) true converted_world
              (lit "Intro text" ++ [10; 10] ++ lit "Conclusion")
              (lit "Intro text" ++ [10; 10] ++ lit "Conclusion")
              "PackageNotFoundError" (lit "corrupt image"))
    as (w' & Hrun & _ & Hmd & Hlast & _).
  - reflexivity.
  - reflexivity.
  - reflexivity.
  - exists w'. split; [exact Hrun|]. split; [exact Hmd | exact Hlast].
Defined.

(** ** Runs of the whole script *)

(** A run in which the DOCX builder fails: the script ends normally, the
    session keeps the Markdown, the Markdown download is offered last, and
    the partial file of the builder has gone with the temporary
    directory. *)
Example main_docx_failure :
  let run := main (M := failing_module) (R := answering paged_response)
               (T := sample_tempfile) sample_secrets idle_inputs
               converted_world in
  run.1 = Ok ()
  ∧ session_state run.2 = session_state converted_world
  ∧ files run.2 = ∅
  ∧ last (screen run.2)
    = Some (st_download_button markdown_failed_label
              (DataStr (lit "Intro text" ++ [10; 10] ++ lit "Conclusion"))
              (lit "output.md") (lit "text/markdown")).
Proof. vm_compute. auto. Qed.

(** A run with an empty title input: the first page gets no heading. *)
Example main_empty_title :
  let run := main (M := sample_module) (R := answering paged_response)
               (T := sample_tempfile) sample_secrets (process_inputs [])
               fresh_world in
  run.1 = Ok ()
  ∧ pages_text (session_state run.2)
    = [lit "Intro text"; []; []; lit "Conclusion"].
Proof. vm_compute. auto. Qed.

(** A run with the title "Report". *)
Example main_with_title :
  let run := main (M := sample_module) (R := answering paged_response)
               (T := sample_tempfile) sample_secrets
               (process_inputs (lit "Report")) fresh_world in
  run.1 = Ok ()
  ∧ pages_text (session_state run.2)
    = [lit "# Report" ++ [10; 10] ++ lit "Intro text"; []; [];
       lit "Conclusion"]
  ∧ files run.2 = ∅.
Proof. vm_compute. auto. Qed.

(** A run on a response without content: the error is shown and the
    session holds no results. *)
Example main_no_content :
  let run := main (M := sample_module) (R := answering blank_response)
               (T := sample_tempfile) sample_secrets (process_inputs [])
               fresh_world in
  run.1 = Ok ()
  ∧ session_state run.2 = initial_session
  ∧ st_error ([10060] ++ lit " Error processing PDF: " ++ no_content_message)
      ∈ screen run.2.
Proof.
  vm_compute. split; [done|]. split; [done|].
  apply list_elem_of_In. simpl. auto 10.
Qed.

(** * Further properties of the driver *)

(** ** Steps of the script monad *)

Lemma bind_run {A B : Type} (m : script A) (f : A → script B) (w : World) :
  (m ≫= f) w
  = match m w with
    | (Ok a, w') => f a w'
    | (Raise e, w') => (Raise e, w')
    end.
Proof. reflexivity. Qed.

Lemma show_run (x : widget) (w : World) : show x w = (Ok (), shown [x] w).
Proof. reflexivity. Qed.

Lemma show_then {B : Type} (x : widget) (f : () → script B) (w : World) :
  (show x ≫= f) w = f () (shown [x] w).
Proof. reflexivity. Qed.

Lemma mret_run {A : Type} (a : A) (w : World) : (mret a : script A) w = (Ok a, w).
Proof. reflexivity. Qed.

Lemma shown_shown (xs ys : list widget) (w : World) :
  shown ys (shown xs w) = shown (xs ++ ys) w.
Proof. unfold shown. simpl. by rewrite app_assoc. Qed.

Lemma shown_nil (w : World) : shown [] w = w.
Proof. destruct w. unfold shown. simpl. by rewrite app_nil_r. Qed.

(** ** The configuration (lines 33-44) *)

Lemma get_config_from_secrets_none (secrets : Secrets) (w : World) :
  lacks_config secrets →
  ∃ key,
    get_config_from_secrets secrets w
    = (Ok None,
       shown [st_error (lit "Missing configuration in secrets.toml: " ++ key);
              st_info (lit "Please configure your secrets.toml file. See README.md for details.")]
         w).
Proof.
  unfold lacks_config, get_config_from_secrets, getitem. intros Hlack.
  assert (Hshow : ∀ e : exn,
    (show (st_error (lit "Missing configuration in secrets.toml: "
                       ++ exn_message e));;
     show (st_info (lit "Please configure your secrets.toml file. See README.md for details."));;
     mret None) w
    = (Ok (None : option Config),
       shown [st_error (lit "Missing configuration in secrets.toml: "
                          ++ exn_message e);
              st_info (lit "Please configure your secrets.toml file. See README.md for details.")]
         w)).
  { intros e. by rewrite !show_then, mret_run, shown_shown. }
  destruct secrets as [|sections]; [done|].
  destruct (sections !! lit "mistral") as [m|]; [|eexists; apply Hshow].
  destruct (m !! lit "ocr_endpoint") as [e|] eqn:He; [|eexists; apply Hshow].
  destruct Hlack as [Hlack|Hlack]; [done|]. rewrite Hlack.
  eexists; apply Hshow.
Qed.

Lemma get_config_from_secrets_no_file (w : World) :
  get_config_from_secrets NoSecretsFile w = (Raise StreamlitSecretNotFoundError, w).
Proof. reflexivity. Qed.



Lemma get_config_from_secrets_some (secrets : Secrets) (config : Config) (w : World) :
  has_config secrets config →
  get_config_from_secrets secrets w = (Ok (Some config), w).
Proof.
  intros (sections & m & -> & Hm & He & Hk & Hmodel).
  unfold get_config_from_secrets, getitem. rewrite Hm, He, Hk.
  destruct config as [e k md]. simpl in *. by rewrite Hmodel.
Qed.

(** X2: when the secrets hold the section [mistral] with [ocr_endpoint]
    and [api_key], [get_config_from_secrets] returns the configuration
    with these two and with the entry [model], or the model
    "mistral-document-ai-2505" when there is no such entry; nothing is
    shown. *)
Theorem secrets_give_config (secrets : Secrets) (config : Config) (w : World) :
  has_config secrets config →
  get_config_from_secrets secrets w = (Ok (Some config), w).
Proof. apply get_config_from_secrets_some. Qed.

Lemma secrets_give_config_witness :
  get_config_from_secrets sample_secrets fresh_world
  = (Ok (Some sample_config), fresh_world).
Proof.
  apply (secrets_give_config sample_secrets sample_config fresh_world).
  exists {[ lit "mistral" :=
              {[ lit "ocr_endpoint" := lit "https://ocr.example/v1/ocr";
                 lit "api_key" := lit "secret" ]} ]},
         {[ lit "ocr_endpoint" := lit "https://ocr.example/v1/ocr";
            lit "api_key" := lit "secret" ]}.
  repeat split; reflexivity.
Defined.

(** The three cases are all there is. *)
Lemma config_or_not (secrets : Secrets) :
  secrets = NoSecretsFile ∨ lacks_config secrets
  ∨ ∃ config, has_config secrets config.
Proof.
  unfold lacks_config, has_config.
  destruct secrets as [|sections]; [by left|]. right.
  destruct (sections !! lit "mistral") as [m|] eqn:Hm; [|by left].
  destruct (m !! lit "ocr_endpoint") as [e|] eqn:He; [|by left; left].
  destruct (m !! lit "api_key") as [k|] eqn:Hk; [|by left; right].
  right.
  exists {| endpoint := e; api_key := k;
            model := default (lit "mistral-document-ai-2505") (m !! lit "model") |}.
  by exists sections, m.
Qed.

(** ** The OCR request (lines 46-56 and 62-74) *)

Section Request.

Context `{M : mistral_ocr} `{R : requests}.

(** The four ways a request ends. *)
Lemma post_ocr_with_config_run (payload : value) (config : Config) (w : World) :
  post_ocr_with_config payload config w
  = match post (endpoint config) (ocr_headers config) payload 600 with
    | Raise e => (Raise e, w)
    | Ok r =>
        if (400 <=? status_code r)%Z then
          if (status_code r <? 600)%Z
          then (Raise (HTTPError (str_of_Z (status_code r) ++ lit " Error")),
                shown [api_error r] w)
          else (json r, shown [api_error r] w)
        else (json r, w)
    end.
Proof.
  unfold post_ocr_with_config, ocr_headers. rewrite bind_run.
  unfold lift_result at 1.
  destruct (post _ _ _ _) as [r|e]; [|done].
  rewrite bind_run. destruct (400 <=? status_code r)%Z eqn:H400.
  - rewrite show_then. unfold raise_for_status. rewrite H400. cbn [andb].
    destruct (status_code r <? 600)%Z; [done|].
    rewrite mret_run. unfold lift_result. done.
  - rewrite mret_run. done.
Qed.

(** X3: when the service answers with a status below 400,
    [post_ocr_with_config] gives what parsing the body as JSON gives (the
    value, or the parser's exception) and shows nothing. *)
Theorem good_status_returns_json (payload : value) (config : Config)
    (w : World) (r : Response) :
  post (endpoint config) (ocr_headers config) payload 600 = Ok r →
  (status_code r < 400)%Z →
  post_ocr_with_config payload config w = (json r, w).
Proof.
  intros Hpost Hst. rewrite post_ocr_with_config_run, Hpost.
  destruct (Z.leb_spec 400 (status_code r)); [lia|done].
Qed.

(** X4: when the service answers with a status from 400 to 599,
    [post_ocr_with_config] raises an [HTTPError] and never returns the
    body; before that it shows "API Error <status>: " followed by the
    first 500 characters of the body, [r.text[:500]]: the whole body when
    it has at most 500 characters, and exactly its first 500 otherwise. *)
Theorem error_status_raises (payload : value) (config : Config)
    (w : World) (r : Response) :
  post (endpoint config) (ocr_headers config) payload 600 = Ok r →
  (400 ≤ status_code r < 600)%Z →
  ∃ e,
    post_ocr_with_config payload config w
    = (Raise e,
       shown [st_error (lit "API Error " ++ str_of_Z (status_code r)
                          ++ lit ": " ++ take 500 (text r))] w)
    ∧ exn_class e = "HTTPError"%string
    ∧ (∀ i, (i < 500)%nat → take 500 (text r) !! i = text r !! i)
    ∧ length (take 500 (text r)) = (length (text r) `min` 500)%nat
    ∧ ((length (text r) ≤ 500)%nat → take 500 (text r) = text r).
Proof.
  intros Hpost [Hlo Hhi]. rewrite post_ocr_with_config_run, Hpost.
  destruct (Z.leb_spec 400 (status_code r)); [|lia].
  destruct (Z.ltb_spec (status_code r) 600); [|lia].
  eexists. split; [reflexivity|]. split; [done|]. split; [|split].
  - intros i Hi. by apply lookup_take_lt.
  - rewrite length_take. lia.
  - intros Hlen. by apply take_ge.
Qed.

Lemma call_ocr_run (pdf_bytes : bytes) (config : Config) (w : World) :
  call_ocr pdf_bytes config w
  = post_ocr_with_config (ocr_request config pdf_bytes) config
      (shown [ocr_spinner] w).
Proof. reflexivity. Qed.

(** The outcome of the OCR call does not depend on the world, to which
    the call adds the spinner and at most one error. *)
Lemma call_ocr_only_shows (pdf_bytes : bytes) (config : Config) :
  ∃ r xs, (length xs ≤ 1)%nat
    ∧ ∀ w, call_ocr pdf_bytes config w = (r, shown (ocr_spinner :: xs) w).
Proof.
  destruct (post (endpoint config) (ocr_headers config)
              (ocr_request config pdf_bytes) 600) as [r|e] eqn:Hpost.
  - destruct (400 <=? status_code r)%Z eqn:H400;
      [destruct (status_code r <? 600)%Z eqn:H600|].
    + exists (Raise (HTTPError (str_of_Z (status_code r) ++ lit " Error"))),
        [api_error r].
      split; [simpl; lia|]. intros w.
      by rewrite call_ocr_run, post_ocr_with_config_run, Hpost, H400, H600,
        shown_shown.
    + exists (json r), [api_error r]. split; [simpl; lia|]. intros w.
      by rewrite call_ocr_run, post_ocr_with_config_run, Hpost, H400, H600,
        shown_shown.
    + exists (json r), []. split; [simpl; lia|]. intros w.
      by rewrite call_ocr_run, post_ocr_with_config_run, Hpost, H400.
  - exists (Raise e), []. split; [simpl; lia|]. intros w.
    by rewrite call_ocr_run, post_ocr_with_config_run, Hpost.
Qed.

(** X5: when the request itself fails (the connection, the timeout of 600
    seconds), [process_pdf] raises that exception right after showing its
    spinner; the request carries the model of the configuration and the
    PDF as a data URL, with images switched off, and the bearer token of
    the configuration in its headers. *)
Theorem request_failure_propagates (pdf_bytes : bytes) (config : Config)
    (title : option pystr) (insert_page_breaks : bool) (w : World) (e : exn) :
  post (endpoint config)
    [ (lit "Authorization", lit "Bearer " ++ api_key config);
      (lit "Content-Type", lit "application/json") ]
    (PDict {[ lit "model" := PStr (model config);
              lit "document" :=
                PDict {[ lit "type" := PStr (lit "document_url");
                         lit "document_url" :=
                           PStr (bytes_to_data_url (lit "application/pdf")
                                   pdf_bytes) ]};
              lit "include_image_base64" := PBool false ]})
    600 = Raise e →
  process_pdf pdf_bytes config title insert_page_breaks w
  = (Raise e, shown [ocr_spinner] w).
Proof.
  intros Hpost. apply process_pdf_ocr_fails.
  rewrite call_ocr_run, post_ocr_with_config_run.
  unfold ocr_request, ocr_payload, ocr_headers. by rewrite Hpost.
Qed.

(** The outcome of [process_pdf] does not depend on the world, to which
    it adds the spinner and at most one error. *)
Lemma process_pdf_outcome (pdf_bytes : bytes) (config : Config)
    (title : option pystr) (insert_page_breaks : bool) :
  ∃ r xs, (length xs ≤ 1)%nat
    ∧ ∀ w, process_pdf pdf_bytes config title insert_page_breaks w
           = (r, shown (ocr_spinner :: xs) w).
Proof.
  destruct (call_ocr_only_shows pdf_bytes config) as ([resp|e] & xs & Hxs & Hrun).
  - destruct (normalize_pages (unwrap_container resp)) as [pages|e] eqn:Hn.
    + exists (Ok (process_result resp pages title insert_page_breaks)), xs.
      split; [done|]. intros w.
      by rewrite (process_pdf_run _ _ _ _ _ _ _ (Hrun w)), Hn.
    + exists (Raise e), xs. split; [done|]. intros w.
      by rewrite (process_pdf_run _ _ _ _ _ _ _ (Hrun w)), Hn.
  - exists (Raise e), xs. split; [done|]. intros w.
    by rewrite (process_pdf_ocr_fails _ _ _ _ _ _ _ (Hrun w)).
Qed.

(** X6: [process_pdf] reads and writes neither the session state nor the
    files: its outcome is the same in every world, and all it does to the
    world is to show its spinner and, for a status of 400 or more, one
    error. *)
Theorem process_pdf_only_shows (pdf_bytes : bytes) (config : Config)
    (title : option pystr) (insert_page_breaks : bool) :
  ∃ r xs, (length xs ≤ 1)%nat
    ∧ ∀ w, process_pdf pdf_bytes config title insert_page_breaks w
           = (r, shown (ocr_spinner :: xs) w).
Proof. apply process_pdf_outcome. Qed.

(** X7: what [process_pdf] returns is well formed: there is at least one
    page text, [num_pages] is their number, the Markdown is the one
    assembled from exactly these page texts (without images, with the
    given page-break switch and a width of 6.5), and the response is the
    one the service gave. *)
Theorem process_pdf_result_well_formed (pdf_bytes : bytes) (config : Config)
    (title : option pystr) (insert_page_breaks : bool) (w w' : World)
    (r : ProcessResult) :
  process_pdf pdf_bytes config title insert_page_breaks w = (Ok r, w') →
  result_pages_text r ≠ []
  ∧ length (result_pages_text r) = result_num_pages r
  ∧ result_md_text r
    = build_markdown (result_pages_text r) ∅ ∅ insert_page_breaks (13 # 2)
  ∧ (∃ w0, call_ocr pdf_bytes config w0 = (Ok (result_response r), w')).
Proof.
  intros Hrun.
  destruct (call_ocr pdf_bytes config w) as [[resp|e] w1] eqn:Hcall.
  2: { by rewrite (process_pdf_ocr_fails _ _ _ _ _ _ _ Hcall) in Hrun. }
  rewrite (process_pdf_run _ _ _ _ _ _ _ Hcall) in Hrun.
  destruct (normalize_pages (unwrap_container resp)) as [pages|e] eqn:Hn;
    [|done].
  injection Hrun as <- <-. cbn [process_result result_pages_text
    result_num_pages result_md_text result_response].
  pose proof (extract_pages_text_length title 1 pages) as Hlen.
  split.
  - intros Hnil. rewrite Hnil in Hlen. apply normalize_pages_nonempty in Hn.
    by destruct pages.
  - split; [done|]. split; [done|]. by exists w.
Qed.

(** X8: the page-break switch reaches the Markdown only: with the switch
    on or off, [process_pdf] fails with the same exception or returns the
    same response, page texts and number of pages, and leaves the same
    world. *)
Theorem page_breaks_touch_markdown_only (pdf_bytes : bytes) (config : Config)
    (title : option pystr) (w : World) :
  (process_pdf pdf_bytes config title true w).2
  = (process_pdf pdf_bytes config title false w).2
  ∧ match (process_pdf pdf_bytes config title true w).1,
          (process_pdf pdf_bytes config title false w).1 with
    | Ok r1, Ok r2 =>
        result_response r1 = result_response r2
        ∧ result_pages_text r1 = result_pages_text r2
        ∧ result_num_pages r1 = result_num_pages r2
    | Raise e1, Raise e2 => e1 = e2
    | _, _ => False
    end.
Proof.
  destruct (call_ocr pdf_bytes config w) as [[resp|e] w1] eqn:Hcall.
  - rewrite !(process_pdf_run _ _ _ _ _ _ _ Hcall).
    by destruct (normalize_pages (unwrap_container resp)).
  - by rewrite !(process_pdf_ocr_fails _ _ _ _ _ _ _ Hcall).
Qed.

End Request.

Lemma good_status_returns_json_witness :
  post_ocr_with_config (R := answering paged_response) PNone sample_config
    fresh_world = (Ok paged_response, fresh_world).
Proof.
  apply (good_status_returns_json (R := answering paged_response) PNone
           sample_config fresh_world
           {| status_code := 200; text := []; json := Ok paged_response |}).
  - reflexivity.
  - simpl. lia.
Defined.

Lemma error_status_raises_witness :
  ∃ e,
    post_ocr_with_config (R := answering_status 503 long_body PNone) PNone
      sample_config fresh_world
    = (Raise e,
       shown [st_error (lit "API Error " ++ str_of_Z 503 ++ lit ": "
                          ++ take 500 long_body)]
         fresh_world)
    ∧ exn_class e = "HTTPError"%string
    ∧ length (take 500 long_body) = 500%nat.
Proof.
  destruct (error_status_raises (R := answering_status 503 long_body PNone)
              PNone sample_config fresh_world
              {| status_code := 503; text := long_body; json := Ok PNone |})
    as (e & Hrun & Hcls & _ & Hlen & _).
  - reflexivity.
  - simpl. lia.
  - exists e. split; [exact Hrun|]. split; [exact Hcls|].
    refine (eq_trans Hlen _). reflexivity.
Defined.

Lemma request_failure_propagates_witness :
  process_pdf (M := sample_module) (R := unreachable) [37; 80; 68; 70]
    sample_config None true fresh_world
  = (Raise (Exception "ConnectionError" (lit "connection refused")),
     shown [ocr_spinner] fresh_world).
Proof.
  apply (request_failure_propagates (M := sample_module) (R := unreachable)
           [37; 80; 68; 70] sample_config None true fresh_world).
  reflexivity.
Defined.

Lemma process_pdf_result_well_formed_witness :
  ∃ r, process_pdf (M := sample_module) (R := answering paged_response) []
         sample_config None true fresh_world = (Ok r, after_ocr fresh_world)
    ∧ result_pages_text r ≠ []
    ∧ length (result_pages_text r) = result_num_pages r.
Proof.
  exists (process_result (M := sample_module) paged_response sample_pages None
            true).
  assert (Hrun : process_pdf (M := sample_module)
                   (R := answering paged_response) [] sample_config None true
                   fresh_world
                 = (Ok (process_result (M := sample_module) paged_response
                          sample_pages None true), after_ocr fresh_world))
    by reflexivity.
  destruct (process_pdf_result_well_formed (M := sample_module)
              (R := answering paged_response) [] sample_config None true
              fresh_world (after_ocr fresh_world) _ Hrun)
    as (Hne & Hlen & _).
  split; [exact Hrun|]. split; [exact Hne | exact Hlen].
Defined.

(** ** What a script leaves alone *)

#[local] Instance only_shows_preorder : PreOrder only_shows.
Proof.
  split.
  - intros w. by repeat split.
  - intros w1 w2 w3 (Hs1 & Hf1 & Hp1) (Hs2 & Hf2 & Hp2). repeat split.
    + by rewrite Hs2.
    + by rewrite Hf2.
    + by etrans.
Qed.

#[local] Instance keeps_session_preorder : PreOrder keeps_session.
Proof.
  split.
  - intros w. by split.
  - intros w1 w2 w3 (Hs1 & Hp1) (Hs2 & Hp2). split.
    + by rewrite Hs2.
    + by etrans.
Qed.

#[local] Instance keeps_docx_path_preorder : PreOrder keeps_docx_path.
Proof.
  split.
  - intros w. by split.
  - intros w1 w2 w3 (Hs1 & Hp1) (Hs2 & Hp2). split.
    + by rewrite Hs2.
    + by etrans.
Qed.

Lemma only_shows_keeps_session (w w' : World) :
  only_shows w w' → keeps_session w w'.
Proof. intros (Hs & _ & Hp). by split. Qed.

Lemma keeps_session_keeps_docx_path (w w' : World) :
  keeps_session w w' → keeps_docx_path w w'.
Proof. intros (Hs & Hp). split; [by rewrite Hs | done]. Qed.

Lemma preserves_weaken {A : Type} (R R' : relation World) (m : script A) :
  (∀ w w', R w w' → R' w w') → preserves R m → preserves R' m.
Proof. intros Himp Hm w r w' Hrun. by eapply Himp, Hm. Qed.

Lemma preserves_mret (R : relation World) `{!PreOrder R} {A : Type} (a : A) : preserves R (mret a : script A).
Proof. intros w r w' [= _ <-]. reflexivity. Qed.

Lemma preserves_raise (R : relation World) `{!PreOrder R} {A : Type} (e : exn) : preserves R (raise e : script A).
Proof. intros w r w' [= _ <-]. reflexivity. Qed.

Lemma preserves_lift_result (R : relation World) `{!PreOrder R} {A : Type}
    (x : result A) :
  preserves R (lift_result x).
Proof. intros w r w' [= _ <-]. reflexivity. Qed.

Lemma preserves_get_session (R : relation World) `{!PreOrder R} : preserves R get_session.
Proof. intros w r w' [= _ <-]. reflexivity. Qed.

Lemma preserves_get_files (R : relation World) `{!PreOrder R} : preserves R get_files.
Proof. intros w r w' [= _ <-]. reflexivity. Qed.

Lemma preserves_bind (R : relation World) `{!PreOrder R} {A B : Type}
    (m : script A) (f : A → script B) :
  preserves R m → (∀ a, preserves R (f a)) → preserves R (m ≫= f).
Proof.
  intros Hm Hf w r w' Hrun. rewrite bind_run in Hrun.
  destruct (m w) as [[a|e] w1] eqn:Hmw.
  - etrans; [by eapply Hm | by eapply Hf].
  - injection Hrun as _ <-. by eapply Hm.
Qed.

Lemma preserves_try_except (R : relation World) `{!PreOrder R} {A : Type}
    (body : script A) (handler : exn → script A) :
  preserves R body → (∀ e, preserves R (handler e)) →
  preserves R (try_except body handler).
Proof.
  intros Hb Hh w r w' Hrun. unfold try_except in Hrun.
  destruct (body w) as [[a|[c m|c m]] w1] eqn:Hbw.
  - injection Hrun as _ <-. by eapply Hb.
  - etrans; [by eapply Hb | by eapply Hh].
  - injection Hrun as _ <-. by eapply Hb.
Qed.

Lemma preserves_show (x : widget) : preserves only_shows (show x).
Proof.
  intros w r w' [= _ <-]. repeat split. simpl. by apply prefix_app_r.
Qed.

Lemma preserves_put_files (fs : FS) : preserves keeps_session (put_files fs).
Proof. intros w r w' [= _ <-]. by split. Qed.

Lemma preserves_lift_files {A : Type} (f : FS → result A * FS) :
  preserves keeps_session (lift_files f).
Proof.
  intros w r w'. unfold lift_files. destruct (f (files w)) as [r0 fs].
  intros [= _ <-]. by split.
Qed.

Lemma preserves_with_TemporaryDirectory {A : Type} (mk : FS → path)
    (body : path → script A) :
  (∀ tmp, preserves keeps_session (body tmp)) →
  preserves keeps_session (with_TemporaryDirectory mk body).
Proof.
  intros Hb w r w'. unfold with_TemporaryDirectory.
  destruct (body (mk (files w)) w) as [r0 w0] eqn:Hrun.
  intros [= _ <-]. by apply Hb in Hrun as [Hs Hp].
Qed.

Lemma show_keeps_session (x : widget) : preserves keeps_session (show x).
Proof.
  apply (preserves_weaken only_shows); [|apply preserves_show].
  apply only_shows_keeps_session.
Qed.

Lemma show_keeps_docx_path (x : widget) : preserves keeps_docx_path (show x).
Proof.
  apply (preserves_weaken keeps_session); [|apply show_keeps_session].
  apply keeps_session_keeps_docx_path.
Qed.

Lemma show_pages_run (i : nat) (pages : list pystr) (w : World) :
  show_pages i pages w = (Ok (), shown (page_expanders i pages) w).
Proof.
  revert i w. induction pages as [|page rest IH]; intros i w.
  - simpl. by rewrite mret_run, shown_nil.
  - cbn [show_pages page_expanders]. rewrite show_then, IH, shown_shown.
    reflexivity.
Qed.

Lemma session_md_text_keeps (R : relation World) `{!PreOrder R} :
  preserves R session_md_text.
Proof.
  unfold session_md_text. apply (preserves_bind R); [apply (preserves_get_session R)|].
  intros s. destruct (md_text s); [apply (preserves_mret R) | apply (preserves_raise R)].
Qed.

Section ResultsFrame.

Context `{M : mistral_ocr} `{T : tempfile}.

Lemma create_docx_keeps_session (md : pystr) (pages : list pystr) (dir : path)
    (breaks : bool) :
  preserves keeps_session (create_docx md pages dir breaks).
Proof.
  unfold create_docx. apply (preserves_bind keeps_session); [apply show_keeps_session|].
  intros _. apply (preserves_bind keeps_session); [apply preserves_lift_files|].
  intros _. apply (preserves_mret keeps_session).
Qed.

Lemma show_pages_keeps_session (i : nat) (pages : list pystr) :
  preserves keeps_session (show_pages i pages).
Proof.
  intros w r w'. rewrite show_pages_run. intros [= _ <-].
  split; [done|]. simpl. by apply prefix_app_r.
Qed.

(** The results step never changes the session state, whatever the
    builder does and however the step ends. *)
Lemma show_results_keeps_session (breaks : bool) :
  preserves keeps_session (show_results breaks).
Proof.
  unfold show_results.
  apply (preserves_bind keeps_session); [apply show_keeps_session|]. intros _.
  apply (preserves_bind keeps_session); [apply show_keeps_session|]. intros _.
  apply preserves_with_TemporaryDirectory. intros tmp.
  apply (preserves_bind keeps_session); [apply (session_md_text_keeps keeps_session)|]. intros md.
  apply (preserves_bind keeps_session).
  { unfold write_text.
    apply (preserves_bind keeps_session); [apply (preserves_lift_result keeps_session)|]. intros b.
    apply (preserves_bind keeps_session); [apply (preserves_get_files keeps_session)|]. intros fs.
    apply preserves_put_files. }
  intros _. apply (preserves_try_except keeps_session).
  - apply (preserves_bind keeps_session); [apply (session_md_text_keeps keeps_session)|]. intros md1.
    apply (preserves_bind keeps_session); [apply (preserves_get_session keeps_session)|]. intros s.
    apply (preserves_bind keeps_session); [apply create_docx_keeps_session|]. intros docx.
    apply (preserves_bind keeps_session); [apply (session_md_text_keeps keeps_session)|]. intros md2.
    apply (preserves_bind keeps_session); [apply show_keeps_session|]. intros _.
    apply (preserves_bind keeps_session); [apply (preserves_get_files keeps_session)|]. intros fs.
    apply (preserves_bind keeps_session).
    { destruct (fs !! docx); [apply show_keeps_session|].
      apply (preserves_mret keeps_session). }
    intros _.
    apply (preserves_bind keeps_session); [apply show_keeps_session|]. intros _.
    apply (preserves_bind keeps_session); [apply (session_md_text_keeps keeps_session)|]. intros md3.
    apply (preserves_bind keeps_session); [apply show_keeps_session|]. intros _.
    apply (preserves_bind keeps_session); [apply show_keeps_session|]. intros _.
    apply (preserves_bind keeps_session); [apply (preserves_get_session keeps_session)|]. intros s1.
    apply (preserves_bind keeps_session); [apply show_pages_keeps_session|]. intros _.
    apply (preserves_bind keeps_session); [apply show_keeps_session|]. intros _.
    apply (preserves_bind keeps_session); [apply (preserves_get_session keeps_session)|]. intros s2.
    apply show_keeps_session.
  - intros e.
    apply (preserves_bind keeps_session); [apply show_keeps_session|]. intros _.
    apply (preserves_bind keeps_session); [apply show_keeps_session|]. intros _.
    apply (preserves_bind keeps_session); [apply (session_md_text_keeps keeps_session)|]. intros md1.
    apply show_keeps_session.
Qed.

End ResultsFrame.

(** ** The process button (lines 164-185) *)

Section Process.

Context `{M : mistral_ocr} `{R : requests}.

(** The three ways the handler of the button ends. *)
Lemma process_clicked_run (config : Config) (title : pystr) (breaks : bool)
    (pdf_bytes : bytes) (w : World) :
  process_clicked config title breaks pdf_bytes w
  = match process_pdf pdf_bytes config (title_argument title) breaks w with
    | (Ok r, w1) => (Ok (), shown [success_message r] (stored r w1))
    | (Raise (Exception c m), w1) =>
        (Ok (),
         shown [st_error ([10060] ++ lit " Error processing PDF: " ++ m);
                st_exception (Exception c m)] w1)
    | (Raise (BaseException c m), w1) => (Raise (BaseException c m), w1)
    end.
Proof.
  unfold process_clicked, try_except. rewrite bind_run.
  destruct (process_pdf _ _ _ _ w) as [[r|[c m|c m]] w1]; try reflexivity.
  by rewrite show_then, show_run, shown_shown.
Qed.

Lemma process_pdf_frame (pdf_bytes : bytes) (config : Config)
    (title : option pystr) (breaks : bool) :
  preserves only_shows (process_pdf pdf_bytes config title breaks).
Proof.
  destruct (process_pdf_outcome pdf_bytes config title breaks)
    as (r & xs & _ & Hrun).
  intros w r' w'. rewrite Hrun. intros [= _ <-]. repeat split.
  simpl. by apply prefix_app_r.
Qed.

Lemma process_clicked_keeps_docx_path (config : Config) (title : pystr)
    (breaks : bool) (pdf_bytes : bytes) :
  preserves keeps_docx_path (process_clicked config title breaks pdf_bytes).
Proof.
  intros w r w'. rewrite process_clicked_run.
  destruct (process_pdf _ _ _ _ w) as [[res|[c m|c m]] w1] eqn:Hrun;
    apply process_pdf_frame in Hrun as (Hs & Hf & Hp);
    intros [= _ <-]; split; simpl; rewrite ?Hs; try done.
  - etrans; [exact Hp | by apply prefix_app_r].
  - etrans; [exact Hp | by apply prefix_app_r].
Qed.

(** X9: a conversion that fails does not end the script and does not touch
    the session: when [process_pdf] raises an exception derived from
    [Exception], the handler of the button ends normally after showing
    "Error processing PDF: " with the message and the exception itself;
    the session state, with any results of an earlier conversion, and the
    files are as before.  Other exceptions pass through. *)
Theorem failed_conversion_keeps_session (config : Config) (title : pystr)
    (breaks : bool) (pdf_bytes : bytes) (w w1 : World) (e : exn) :
  process_pdf pdf_bytes config (title_argument title) breaks w = (Raise e, w1) →
  process_clicked config title breaks pdf_bytes w
  = match e with
    | Exception c m =>
        (Ok (),
         shown [st_error ([10060] ++ lit " Error processing PDF: " ++ m);
                st_exception e] w1)
    | BaseException c m => (Raise e, w1)
    end
  ∧ session_state (process_clicked config title breaks pdf_bytes w).2
    = session_state w
  ∧ files (process_clicked config title breaks pdf_bytes w).2 = files w.
Proof.
  intros Hrun. rewrite process_clicked_run, Hrun.
  apply process_pdf_frame in Hrun as (Hs & Hf & _).
  by destruct e.
Qed.

(** X10: a conversion that succeeds is stored in the session: the
    response, the page texts and the Markdown of the result replace the
    earlier ones, the session's [docx_path] and the files stay as they
    are, and the message "Successfully processed N page(s)!" is shown
    with the number of pages of the result. *)
Theorem conversion_is_stored (config : Config) (title : pystr)
    (breaks : bool) (pdf_bytes : bytes) (w w1 : World) (r : ProcessResult) :
  process_pdf pdf_bytes config (title_argument title) breaks w = (Ok r, w1) →
  ∃ w',
    process_clicked config title breaks pdf_bytes w = (Ok (), w')
    ∧ ocr_result (session_state w') = Some (result_response r)
    ∧ pages_text (session_state w') = result_pages_text r
    ∧ md_text (session_state w') = Some (result_md_text r)
    ∧ docx_path (session_state w') = docx_path (session_state w)
    ∧ files w' = files w
    ∧ screen w'
      = screen w1
        ++ [st_success ([9989] ++ lit " Successfully processed "
                          ++ str_of_Z (Z.of_nat (result_num_pages r))
                          ++ lit " page(s)!")].
Proof.
  intros Hrun. eexists. rewrite process_clicked_run, Hrun.
  apply process_pdf_frame in Hrun as (Hs & Hf & _).
  split; [reflexivity|]. simpl. by rewrite Hs.
Qed.

End Process.

(** ** One run of the script (lines 133-259) *)

Section Main.

Context `{M : mistral_ocr} `{R : requests} `{T : tempfile}.

Lemma main_without_config (secrets : Secrets) (inputs : Inputs) (w : World) :
  lacks_config secrets →
  ∃ key,
    main secrets inputs w
    = (Raise StopException,
       shown (page_top
              ++ [st_error (lit "Missing configuration in secrets.toml: " ++ key);
                  st_info (lit "Please configure your secrets.toml file. See README.md for details.")])
         w).
Proof.
  intros Hlack. unfold main. rewrite !show_then, bind_run.
  destruct (get_config_from_secrets_none secrets
              (shown [st_markdown (lit "Upload a PDF file to extract text and convert it to Markdown and DOCX formats.")]
                 (shown [st_title ([128196] ++ lit " Suvichaar Doc Intelligence Platform Test")] w))
              Hlack) as [key ->].
  exists key. unfold raise. by rewrite !shown_shown.
Qed.

(** Without a secrets file, the exception of [st.secrets] ends the run. *)
Lemma main_without_secrets_file (inputs : Inputs) (w : World) :
  main NoSecretsFile inputs w
  = (Raise StreamlitSecretNotFoundError, shown page_top w).
Proof.
  unfold main. rewrite !show_then, bind_run, get_config_from_secrets_no_file.
  by rewrite shown_shown.
Qed.

(** With a configuration, the script reaches the sidebar. *)
Lemma main_with_config (secrets : Secrets) (config : Config)
    (inputs : Inputs) (w : World) :
  has_config secrets config →
  main secrets inputs w
  = match uploaded_file inputs with
    | None => (Ok (), shown (page_top ++ sidebar) w)
    | Some (name, data) =>
        ((if process_button inputs
          then process_clicked config (title_input inputs)
                 (insert_page_breaks_input inputs) data
          else mret ());;
         s ← get_session;
         if opt_truthy (md_text s)
         then show_results (insert_page_breaks_input inputs)
         else mret ())
          (shown (page_top ++ sidebar ++ [file_info name data]) w)
    end.
Proof.
  intros Hcfg. unfold main. rewrite !show_then, bind_run.
  rewrite (get_config_from_secrets_some secrets config _ Hcfg).
  rewrite !show_then, !shown_shown.
  destruct (uploaded_file inputs) as [[name data]|].
  - by rewrite show_then, shown_shown.
  - by rewrite mret_run.
Qed.


(** X12: without an uploaded file nothing but the page top and the sidebar
    is shown: even when the session holds the results of an earlier
    conversion, no results and no download are offered, and the run ends
    normally with session state and files untouched. *)
Theorem main_without_file (secrets : Secrets) (config : Config)
    (inputs : Inputs) (w : World) :
  has_config secrets config →
  uploaded_file inputs = None →
  main secrets inputs w = (Ok (), shown (page_top ++ sidebar) w)
  ∧ ∀ label data name mime,
      st_download_button label data name mime ∉ page_top ++ sidebar.
Proof.
  intros Hcfg Hfile. rewrite (main_with_config _ _ _ _ Hcfg), Hfile.
  split; [done|]. intros label data name mime Hin.
  apply list_elem_of_In in Hin. simpl in Hin.
  repeat (destruct Hin as [Hin|Hin]; [discriminate|]). done.
Qed.

(** X13: only the process button changes the session: in a run in which
    the button is not pressed the session state is left as it is, whatever
    the secrets, the uploaded file, the outcome of the DOCX builder and
    the way the run ends. *)
Theorem session_changes_only_on_button (secrets : Secrets) (inputs : Inputs)
    (w : World) :
  process_button inputs = false →
  session_state (main secrets inputs w).2 = session_state w.
Proof.
  intros Hbutton.
  destruct (config_or_not secrets) as [->|[Hlack|[config Hcfg]]].
  - by rewrite main_without_secrets_file.
  - by destruct (main_without_config secrets inputs w Hlack) as [key ->].
  - rewrite (main_with_config _ _ _ _ Hcfg), Hbutton.
    destruct (uploaded_file inputs) as [[name data]|]; [|done].
    rewrite bind_run, mret_run, bind_run. unfold get_session at 1.
    cbn [session_state shown].
    destruct (opt_truthy (md_text (session_state w))); [|done].
    destruct (show_results _ _) as [r w'] eqn:Hrun.
    by apply show_results_keeps_session in Hrun as [Hs _].
Qed.

(** X14: a run of the script only adds to the screen, and never writes
    the session's [docx_path]: after every run the widgets shown before
    are still there, in front, and [docx_path] is what it was. *)
Theorem main_adds_widgets_only (secrets : Secrets) (inputs : Inputs)
    (w : World) :
  screen w `prefix_of` screen (main secrets inputs w).2
  ∧ docx_path (session_state (main secrets inputs w).2)
    = docx_path (session_state w).
Proof.
  cut (keeps_docx_path w (main secrets inputs w).2).
  { intros [Hd Hp]. by split. }
  destruct (config_or_not secrets) as [->|[Hlack|[config Hcfg]]].
  { rewrite main_without_secrets_file.
    split; [done|]. simpl. by apply prefix_app_r. }
  { destruct (main_without_config secrets inputs w Hlack) as [key ->].
    split; [done|]. simpl. by apply prefix_app_r. }
  rewrite (main_with_config _ _ _ _ Hcfg).
  destruct (uploaded_file inputs) as [[name data]|].
  2: { split; [done|]. simpl. by apply prefix_app_r. }
  set (w0 := shown _ w).
  assert (H0 : keeps_docx_path w w0).
  { split; [done|]. simpl. by apply prefix_app_r. }
  etrans; [exact H0|].
  match goal with |- keeps_docx_path _ (?m w0).2 =>
    assert (Hm : preserves keeps_docx_path m) end.
  { apply (preserves_bind keeps_docx_path).
    - destruct (process_button inputs);
        [apply process_clicked_keeps_docx_path
        | apply (preserves_mret keeps_docx_path)].
    - intros _. apply (preserves_bind keeps_docx_path);
        [apply (preserves_get_session keeps_docx_path)|].
      intros s. destruct (opt_truthy (md_text s)).
      + apply (preserves_weaken keeps_session);
          [apply keeps_session_keeps_docx_path
          | apply show_results_keeps_session].
      + apply (preserves_mret keeps_docx_path). }
  match goal with |- keeps_docx_path _ (?m w0).2 =>
    destruct (m w0) as [r w'] eqn:Hrun end.
  by apply Hm in Hrun.
Qed.

End Main.

(** ** The results step (lines 188-259) *)

Lemma page_expanders_lookup (i k : nat) (pages : list pystr) (page : pystr) :
  pages !! k = Some page →
  page_expanders i pages !! k
  = Some (st_expander (lit "Page " ++ str_of_Z (Z.of_nat (i + k)))
            (i + k =? 1)%nat page).
Proof.
  revert i k. induction pages as [|p rest IH]; intros i k Hk; [done|].
  destruct k as [|k]; simpl in *.
  - injection Hk as ->. by rewrite Nat.add_0_r.
  - rewrite (IH (S i) k Hk). by rewrite Nat.add_succ_r.
Qed.

Lemma page_expanders_expander (i : nat) (pages : list pystr) (x : widget) :
  x ∈ page_expanders i pages → ∃ l e t, x = st_expander l e t.
Proof.
  revert i. induction pages as [|p rest IH]; intros i Hin; simpl in Hin.
  - by apply elem_of_nil in Hin.
  - apply elem_of_cons in Hin as [->|Hin]; [by eexists _, _, _ | by eapply IH].
Qed.

Lemma utf8_encode_surrogate (s : pystr) (c : N) :
  c ∈ s → is_surrogate c = true →
  ∃ e, utf8_encode s = Raise e ∧ exn_class e = "UnicodeEncodeError"%string.
Proof.
  intros Hin Hc. induction s as [|d s IH]; [by apply elem_of_nil in Hin|].
  simpl. apply elem_of_cons in Hin as [<-|Hin].
  - assert (Hnone : utf8_char c = None).
    { unfold utf8_char, is_surrogate in *.
      apply andb_prop in Hc as [Hlo Hhi].
      apply N.leb_le in Hlo, Hhi.
      destruct (N.ltb_spec c 128); [lia|].
      destruct (N.ltb_spec c 2048); [lia|].
      destruct (N.ltb_spec c 65536); [|lia].
      destruct (N.leb_spec 55296 c); [|lia].
      destruct (N.leb_spec c 57343); [done|lia]. }
    rewrite Hnone. by eexists.
  - destruct (IH Hin) as (e & -> & Hcls).
    destruct (utf8_char d); by eexists.
Qed.

Section ResultsRuns.

Context `{M : mistral_ocr} `{T : tempfile}.

(** The results step when the DOCX builder succeeds. *)
Lemma show_results_success (breaks : bool) (w : World) (md : pystr)
    (encoded : bytes) (fs' : FS) :
  md_text (session_state w) = Some md →
  utf8_encode md = Ok encoded →
  build_hybrid_docx md (pages_text (session_state w)) ∅ ∅
    (path_join (mkdtemp (files w)) (lit "output.docx")) breaks (13 # 2)
    (<[path_join (mkdtemp (files w)) (lit "output.md") := encoded]> (files w))
  = (Ok (), fs') →
  show_results breaks w
  = (Ok (),
     {| session_state := session_state w;
        files := remove_tree (mkdtemp (files w)) fs';
        screen := screen w
          ++ results_head ++ [docx_spinner]
          ++ results_body (session_state w) md
               (fs' !! path_join (mkdtemp (files w)) (lit "output.docx")) |}).
Proof.
  intros Hmd Henc Hbuild.
  destruct w as [[ocr pages mdo docx] fs scr]. simpl in Hmd, Hbuild. subst mdo.
  unfold show_results, with_TemporaryDirectory, try_except, session_md_text,
    write_text, create_docx, mbind, script_bind, mret, script_ret, show,
    get_session, get_files, put_files, lift_result, lift_files, raise.
  simpl. rewrite Henc. simpl. rewrite Hbuild. simpl.
  destruct (fs' !! path_join (mkdtemp fs) (lit "output.docx")) as [b|];
    simpl; rewrite show_pages_run; simpl;
    unfold results_body, results_head; simpl;
    repeat (rewrite <- app_assoc; simpl); reflexivity.
Qed.

(** The results step when the Markdown cannot be written. *)
Lemma show_results_unencodable (breaks : bool) (w : World) (md : pystr)
    (e : exn) :
  md_text (session_state w) = Some md →
  utf8_encode md = Raise e →
  show_results breaks w
  = (Raise e,
     {| session_state := session_state w;
        files := remove_tree (mkdtemp (files w)) (files w);
        screen := screen w ++ results_head |}).
Proof.
  intros Hmd Henc.
  destruct w as [[ocr pages mdo docx] fs scr]. simpl in Hmd. subst mdo.
  unfold show_results, with_TemporaryDirectory, try_except, session_md_text,
    write_text, mbind, script_bind, mret, script_ret, show,
    get_session, get_files, put_files, lift_result, raise.
  simpl. rewrite Henc. simpl. unfold results_head.
  by rewrite <- app_assoc.
Qed.

(** X15: after the results step nothing is left below the temporary
    directory, whether the DOCX builder has failed or not and whatever it
    has written there: the Markdown file and the DOCX file exist only
    while the step runs. *)
Theorem results_leave_no_temporary_file (breaks : bool) (w : World) (p : path) :
  mkdtemp (files w) `prefix_of` p →
  files (show_results breaks w).2 !! p = None.
Proof.
  intros Hp. destruct (show_results breaks w) as [r w'] eqn:Hrun.
  by apply (show_results_cleans _ _ _ _ _ Hrun).
Qed.

(** X16: when the DOCX builder succeeds, the results step ends normally
    and offers the session's Markdown for download; it offers a DOCX
    download exactly when the builder has left a file at
    [output.docx] in the temporary directory, with the bytes of that
    file; it shows the Markdown as code, one expander per page and the
    raw response, and not the button "Download Markdown (DOCX failed)". *)
Theorem built_docx_is_offered (breaks : bool) (w : World) (md : pystr)
    (encoded : bytes) (fs' : FS) :
  md_text (session_state w) = Some md →
  utf8_encode md = Ok encoded →
  build_hybrid_docx md (pages_text (session_state w)) ∅ ∅
    (path_join (mkdtemp (files w)) (lit "output.docx")) breaks (13 # 2)
    (<[path_join (mkdtemp (files w)) (lit "output.md") := encoded]> (files w))
  = (Ok (), fs') →
  ∃ xs w',
    show_results breaks w = (Ok (), w')
    ∧ session_state w' = session_state w
    ∧ screen w' = screen w ++ xs
    ∧ st_download_button ([128229] ++ lit " Download Markdown") (DataStr md)
        (lit "output.md") (lit "text/markdown") ∈ xs
    ∧ (∀ docx_bytes,
         st_download_button ([128229] ++ lit " Download DOCX")
           (DataBytes docx_bytes) (lit "output.docx")
           (lit "application/vnd.openxmlformats-officedocument.wordprocessingml.document")
           ∈ xs
         ↔ fs' !! path_join (mkdtemp (files w)) (lit "output.docx")
           = Some docx_bytes)
    ∧ st_code md (lit "markdown") ∈ xs
    ∧ (∀ k page, pages_text (session_state w) !! k = Some page →
         st_expander (lit "Page " ++ str_of_Z (Z.of_nat (S k))) (k =? 0)%nat page
           ∈ xs)
    ∧ st_json (ocr_result (session_state w)) ∈ xs
    ∧ st_download_button markdown_failed_label (DataStr md) (lit "output.md")
        (lit "text/markdown") ∉ xs.
Proof.
  intros Hmd Henc Hbuild.
  eexists _, _. split; [by apply (show_results_success _ _ _ _ _ Hmd Henc Hbuild)|].
  cbn [session_state screen]. split; [done|]. split; [reflexivity|].
  set (found := fs' !! path_join (mkdtemp (files w)) (lit "output.docx")).
  unfold results_head, results_body.
  repeat split.
  - rewrite !elem_of_app. right. right. left. by left.
  - intros Hin. rewrite !elem_of_app in Hin.
    destruct Hin as [Hin|[Hin|[Hin|[Hin|[Hin|[Hin|Hin]]]]]].
    + apply list_elem_of_In in Hin. simpl in Hin.
      by repeat (destruct Hin as [Hin|Hin]; [discriminate|]).
    + apply list_elem_of_In in Hin. simpl in Hin.
      by repeat (destruct Hin as [Hin|Hin]; [discriminate|]).
    + apply list_elem_of_In in Hin. simpl in Hin.
      by repeat (destruct Hin as [Hin|Hin]; [discriminate|]).
    + destruct found as [b|]; apply list_elem_of_In in Hin; simpl in Hin;
        [|done].
      destruct Hin as [Hin|[]]. by injection Hin as ->.
    + apply list_elem_of_In in Hin. simpl in Hin.
      by repeat (destruct Hin as [Hin|Hin]; [discriminate|]).
    + by apply page_expanders_expander in Hin as (l & e & t & ?).
    + apply list_elem_of_In in Hin. simpl in Hin.
      by repeat (destruct Hin as [Hin|Hin]; [discriminate|]).
  - intros ->. rewrite !elem_of_app. do 3 right. left. by left.
  - rewrite !elem_of_app. do 4 right. left.
    apply list_elem_of_In. simpl. auto.
  - intros k page Hk. rewrite !elem_of_app. do 5 right. left.
    apply list_elem_of_lookup. exists k.
    rewrite (page_expanders_lookup 1 k _ _ Hk). simpl.
    by destruct k.
  - rewrite !elem_of_app. do 6 right. apply list_elem_of_In. simpl. auto.
  - intros Hin. rewrite !elem_of_app in Hin.
    destruct Hin as [Hin|[Hin|[Hin|[Hin|[Hin|[Hin|Hin]]]]]].
    + apply list_elem_of_In in Hin. simpl in Hin.
      by repeat (destruct Hin as [Hin|Hin]; [discriminate|]).
    + apply list_elem_of_In in Hin. simpl in Hin.
      by repeat (destruct Hin as [Hin|Hin]; [discriminate|]).
    + apply list_elem_of_In in Hin. simpl in Hin.
      destruct Hin as [Hin|[]]. unfold markdown_button, markdown_failed_label in Hin.
      injection Hin as Hl. vm_compute in Hl. discriminate.
    + destruct found as [b|]; apply list_elem_of_In in Hin; simpl in Hin;
        [|done].
      by repeat (destruct Hin as [Hin|Hin]; [discriminate|]).
    + apply list_elem_of_In in Hin. simpl in Hin.
      by repeat (destruct Hin as [Hin|Hin]; [discriminate|]).
    + by apply page_expanders_expander in Hin as (l & e & t & ?).
    + apply list_elem_of_In in Hin. simpl in Hin.
      by repeat (destruct Hin as [Hin|Hin]; [discriminate|]).
Qed.

(** X17: when the session's Markdown holds a surrogate code point, which
    UTF-8 cannot encode, writing the Markdown file fails before the DOCX
    is built and outside the [try] block: the results step raises
    [UnicodeEncodeError] after the heading "Results", the builder does not
    run and no download is offered; the session state is untouched. *)
Theorem unencodable_markdown_raises (breaks : bool) (w : World) (md : pystr)
    (c : N) :
  md_text (session_state w) = Some md →
  c ∈ md →
  is_surrogate c = true →
  ∃ e,
    show_results breaks w
    = (Raise e,
       {| session_state := session_state w;
          files := remove_tree (mkdtemp (files w)) (files w);
          screen := screen w
            ++ [st_divider; st_header ([128202] ++ lit " Results")] |})
    ∧ exn_class e = "UnicodeEncodeError"%string.
Proof.
  intros Hmd Hin Hc.
  destruct (utf8_encode_surrogate md c Hin Hc) as (e & Henc & Hcls).
  exists e. split; [|done]. exact (show_results_unencodable breaks w md e Hmd Henc).
Qed.

End ResultsRuns.

(** ** The button and the results in one run *)

Section ButtonRun.

Context `{M : mistral_ocr} `{R : requests} `{T : tempfile}.

(** The outcome of [process_pdf] in one world is its outcome in any. *)
Lemma process_pdf_at (pdf_bytes : bytes) (config : Config)
    (title : option pystr) (breaks : bool) (w w0 : World)
    (r : result ProcessResult) :
  (process_pdf pdf_bytes config title breaks w).1 = r →
  ∃ xs, process_pdf pdf_bytes config title breaks w0
        = (r, shown (ocr_spinner :: xs) w0).
Proof.
  destruct (process_pdf_outcome pdf_bytes config title breaks)
    as (r' & xs & _ & Hrun).
  rewrite (Hrun w). simpl. intros <-. by exists xs.
Qed.

(** A run with a file and the button pressed, up to the results. *)
Lemma main_button_pressed (secrets : Secrets) (config : Config)
    (inputs : Inputs) (name : pystr) (data : bytes) (w : World) :
  has_config secrets config →
  uploaded_file inputs = Some (name, data) →
  process_button inputs = true →
  ∃ xs,
    let w0 := shown (ocr_spinner :: xs)
                (shown (page_top ++ sidebar ++ [file_info name data]) w) in
    main secrets inputs w
    = match (process_pdf data config (title_argument (title_input inputs))
               (insert_page_breaks_input inputs) w).1 with
      | Ok r =>
          if str_truthy (result_md_text r)
          then show_results (insert_page_breaks_input inputs)
                 (shown [success_message r] (stored r w0))
          else (Ok (), shown [success_message r] (stored r w0))
      | Raise (Exception c m) =>
          let w1 :=
            shown [st_error ([10060] ++ lit " Error processing PDF: " ++ m);
                   st_exception (Exception c m)] w0 in
          if opt_truthy (md_text (session_state w))
          then show_results (insert_page_breaks_input inputs) w1
          else (Ok (), w1)
      | Raise (BaseException c m) => (Raise (BaseException c m), w0)
      end.
Proof.
  intros Hcfg Hfile Hbutton.
  destruct (process_pdf_at data config (title_argument (title_input inputs))
              (insert_page_breaks_input inputs) w
              (shown (page_top ++ sidebar ++ [file_info name data]) w) _
              eq_refl) as [xs Hrun].
  exists xs. cbv zeta.
  rewrite (main_with_config _ _ _ _ Hcfg), Hfile, Hbutton.
  rewrite bind_run, process_clicked_run, Hrun.
  destruct (process_pdf _ _ _ _ w).1 as [r|[c m|c m]]; [| |done].
  - rewrite bind_run. unfold get_session at 1.
    cbn [session_state shown stored md_text opt_truthy].
    by destruct (str_truthy (result_md_text r)).
  - rewrite bind_run. unfold get_session at 1. cbn [session_state shown].
    by destruct (opt_truthy (md_text (session_state w))).
Qed.

(** X18: a conversion whose Markdown is empty (as when no page has text)
    is stored and reported as a success, but its results are not shown:
    the run ends normally with the success message as the last widget,
    without building a DOCX and without any download; the files are
    untouched. *)
Theorem empty_markdown_shows_no_results (secrets : Secrets) (config : Config)
    (inputs : Inputs) (name : pystr) (data : bytes) (w : World)
    (r : ProcessResult) :
  has_config secrets config →
  uploaded_file inputs = Some (name, data) →
  process_button inputs = true →
  (process_pdf data config (title_argument (title_input inputs))
     (insert_page_breaks_input inputs) w).1 = Ok r →
  result_md_text r = [] →
  ∃ w',
    main secrets inputs w = (Ok (), w')
    ∧ md_text (session_state w') = Some []
    ∧ pages_text (session_state w') = result_pages_text r
    ∧ files w' = files w
    ∧ last (screen w')
      = Some (st_success ([9989] ++ lit " Successfully processed "
                            ++ str_of_Z (Z.of_nat (result_num_pages r))
                            ++ lit " page(s)!")).
Proof.
  intros Hcfg Hfile Hbutton Hrun Hmd.
  destruct (main_button_pressed _ _ _ _ _ w Hcfg Hfile Hbutton) as [xs Hmain].
  cbv zeta in Hmain. rewrite Hrun, Hmd in Hmain. cbn [str_truthy] in Hmain.
  eexists. split; [exact Hmain|].
  cbn [session_state shown stored md_text pages_text files screen].
  rewrite Hmd. repeat split. by rewrite last_snoc.
Qed.

(** X19: after a conversion with Markdown the same run goes on with the
    results: the results step starts in a world whose session holds the
    response, the page texts and the Markdown of this conversion (so the
    DOCX is built from these, with the page-break switch of the run), with
    the files as they were and the success message shown last. *)
Theorem conversion_is_followed_by_results (secrets : Secrets)
    (config : Config) (inputs : Inputs) (name : pystr) (data : bytes)
    (w : World) (r : ProcessResult) :
  has_config secrets config →
  uploaded_file inputs = Some (name, data) →
  process_button inputs = true →
  (process_pdf data config (title_argument (title_input inputs))
     (insert_page_breaks_input inputs) w).1 = Ok r →
  result_md_text r ≠ [] →
  ∃ w1,
    main secrets inputs w
    = show_results (insert_page_breaks_input inputs) w1
    ∧ session_state w1
      = {| ocr_result := Some (result_response r);
           pages_text := result_pages_text r;
           md_text := Some (result_md_text r);
           docx_path := docx_path (session_state w) |}
    ∧ files w1 = files w
    ∧ last (screen w1)
      = Some (st_success ([9989] ++ lit " Successfully processed "
                            ++ str_of_Z (Z.of_nat (result_num_pages r))
                            ++ lit " page(s)!")).
Proof.
  intros Hcfg Hfile Hbutton Hrun Hmd.
  destruct (main_button_pressed _ _ _ _ _ w Hcfg Hfile Hbutton) as [xs Hmain].
  cbv zeta in Hmain. rewrite Hrun in Hmain.
  destruct (result_md_text r) as [|c md] eqn:Hr; [done|].
  cbn [str_truthy] in Hmain. eexists. split; [exact Hmain|].
  cbn [session_state shown stored files screen]. rewrite Hr.
  repeat split. by rewrite last_snoc.
Qed.

(** X20: after a conversion that fails with an exception derived from
    [Exception], a session that holds Markdown of an earlier conversion
    has these earlier results shown again: the same run goes on with the
    results step, on the unchanged session state and files, right after
    the error and the exception have been shown. *)
Theorem failed_conversion_shows_earlier_results (secrets : Secrets)
    (config : Config) (inputs : Inputs) (name : pystr) (data : bytes)
    (w : World) (cls : string) (msg : pystr) :
  has_config secrets config →
  uploaded_file inputs = Some (name, data) →
  process_button inputs = true →
  (process_pdf data config (title_argument (title_input inputs))
     (insert_page_breaks_input inputs) w).1 = Raise (Exception cls msg) →
  opt_truthy (md_text (session_state w)) = true →
  ∃ w1,
    main secrets inputs w
    = show_results (insert_page_breaks_input inputs) w1
    ∧ session_state w1 = session_state w
    ∧ files w1 = files w
    ∧ last (screen w1) = Some (st_exception (Exception cls msg))
    ∧ st_error ([10060] ++ lit " Error processing PDF: " ++ msg) ∈ screen w1.
Proof.
  intros Hcfg Hfile Hbutton Hrun Hmd.
  destruct (main_button_pressed _ _ _ _ _ w Hcfg Hfile Hbutton) as [xs Hmain].
  cbv zeta in Hmain. rewrite Hrun, Hmd in Hmain.
  eexists. split; [exact Hmain|].
  cbn [session_state shown files screen]. repeat split.
  - change [st_error ([10060] ++ lit " Error processing PDF: " ++ msg);
            st_exception (Exception cls msg)]
      with ([st_error ([10060] ++ lit " Error processing PDF: " ++ msg)]
            ++ [st_exception (Exception cls msg)]).
    by rewrite !app_assoc, last_snoc.
  - rewrite !elem_of_app. right. by left.
Qed.

End ButtonRun.

(** ** The further properties on the sample inputs *)

Lemma failed_conversion_keeps_session_witness :
  process_clicked (M := sample_module) (R := answering blank_response)
    sample_config [] true [37; 80; 68; 70] converted_world
  = (Ok (),
     shown [st_error ([10060] ++ lit " Error processing PDF: "
                        ++ no_content_message);
            st_exception (ValueError no_content_message)]
       (after_ocr converted_world))
  ∧ session_state
      (process_clicked (M := sample_module) (R := answering blank_response)
         sample_config [] true [37; 80; 68; 70] converted_world).2
    = session_state converted_world.
Proof.
  destruct (failed_conversion_keeps_session (M := sample_module)
              (R := answering blank_response) sample_config [] true
              [37; 80; 68; 70] converted_world (after_ocr converted_world)
              (ValueError no_content_message))
    as (Hrun & Hs & _).
  - reflexivity.
  - split; [exact Hrun | exact Hs].
Defined.

Lemma conversion_is_stored_witness :
  ∃ w',
    process_clicked (M := sample_module) (R := answering paged_response)
      sample_config (lit "Report") true [37; 80; 68; 70] fresh_world
    = (Ok (), w')
    ∧ pages_text (session_state w')
      = [lit "# Report" ++ [10; 10] ++ lit "Intro text"; []; [];
         lit "Conclusion"]
    ∧ files w' = ∅.
Proof.
  destruct (conversion_is_stored (M := sample_module)
              (R := answering paged_response) sample_config (lit "Report")
              true [37; 80; 68; 70] fresh_world (after_ocr fresh_world)
              (process_result (M := sample_module) paged_response sample_pages
                 (Some (lit "Report")) true))
    as (w' & Hrun & _ & Hpages & _ & _ & Hfiles & _).
  - reflexivity.
  - exists w'. split; [exact Hrun|]. split; [|exact Hfiles].
    refine (eq_trans Hpages _). vm_compute. reflexivity.
Defined.


Lemma main_without_file_witness :
  main (M := sample_module) (R := answering paged_response)
    (T := sample_tempfile) sample_secrets no_file_inputs converted_world
  = (Ok (), shown (page_top ++ sidebar) converted_world).
Proof.
  refine (proj1 (main_without_file (M := sample_module)
                   (R := answering paged_response) (T := sample_tempfile)
                   sample_secrets sample_config no_file_inputs converted_world
                   _ _)).
  - exists {[ lit "mistral" :=
                {[ lit "ocr_endpoint" := lit "https://ocr.example/v1/ocr";
                   lit "api_key" := lit "secret" ]} ]},
           {[ lit "ocr_endpoint" := lit "https://ocr.example/v1/ocr";
              lit "api_key" := lit "secret" ]}.
    repeat split; reflexivity.
  - reflexivity.
Defined.

Lemma session_changes_only_on_button_witness :
  session_state
    (main (M := failing_module) (R := answering paged_response)
       (T := sample_tempfile) sample_secrets idle_inputs converted_world).2
  = session_state converted_world.
Proof.
  apply (session_changes_only_on_button (M := failing_module)
           (R := answering paged_response) (T := sample_tempfile)
           sample_secrets idle_inputs converted_world).
  reflexivity.
Defined.

Lemma results_leave_no_temporary_file_witness :
  files (show_results (M := failing_module) (T := sample_tempfile) true
           converted_world).2
    !! [lit "tmp"; lit "tmpab12cd"; lit "output.docx"] = None.
Proof.
  apply (results_leave_no_temporary_file (M := failing_module)
           (T := sample_tempfile) true converted_world
           [lit "tmp"; lit "tmpab12cd"; lit "output.docx"]).
  exists [lit "output.docx"]. reflexivity.
Defined.

Lemma built_docx_is_offered_witness :
  ∃ xs w',
    show_results (M := sample_module) (T := sample_tempfile) true
      converted_world = (Ok (), w')
    ∧ screen w' = screen converted_world ++ xs
    ∧ st_download_button ([128229] ++ lit " Download DOCX")
        (DataBytes [10; 0; 10]) (lit "output.docx")
        (lit "application/vnd.openxmlformats-officedocument.wordprocessingml.document")
        ∈ xs.
Proof.
  destruct (built_docx_is_offered (M := sample_module) (T := sample_tempfile)
              true converted_world
              (lit "Intro text" ++ [10; 10] ++ lit "Conclusion")
              (lit "Intro text" ++ [10; 10] ++ lit "Conclusion")
              (build_hybrid_docx (mistral_ocr := sample_module)
                 (lit "Intro text" ++ [10; 10] ++ lit "Conclusion")
                 [lit "Intro text"; []; lit "Conclusion"] ∅ ∅
                 [lit "tmp"; lit "tmpab12cd"; lit "output.docx"] true (13 # 2)
                 {[ [lit "tmp"; lit "tmpab12cd"; lit "output.md"]
                    := lit "Intro text" ++ [10; 10] ++ lit "Conclusion" ]}).2)
    as (xs & w' & Hrun & _ & Hscr & _ & Hdocx & _).
  - reflexivity.
  - reflexivity.
  - vm_compute. reflexivity.
  - exists xs, w'. split; [exact Hrun|]. split; [exact Hscr|].
    apply Hdocx. vm_compute. reflexivity.
Defined.

Lemma unencodable_markdown_raises_witness :
  ∃ e w',
    show_results (M := sample_module) (T := sample_tempfile) true
      surrogate_world = (Raise e, w')
    ∧ exn_class e = "UnicodeEncodeError"%string
    ∧ screen w' = [st_divider; st_header ([128202] ++ lit " Results")].
Proof.
  destruct (unencodable_markdown_raises (M := sample_module)
              (T := sample_tempfile) true surrogate_world [104; 55296] 55296)
    as (e & Hrun & Hcls).
  - reflexivity.
  - apply list_elem_of_In. simpl. auto.
  - reflexivity.
  - eexists e, _. split; [exact Hrun|]. split; [exact Hcls | reflexivity].
Defined.

Lemma empty_markdown_shows_no_results_witness :
  ∃ w',
    main (M := sample_module) (R := answering empty_page_response)
      (T := sample_tempfile) sample_secrets (process_inputs []) fresh_world
    = (Ok (), w')
    ∧ md_text (session_state w') = Some []
    ∧ pages_text (session_state w') = [[]]
    ∧ files w' = ∅.
Proof.
  destruct (empty_markdown_shows_no_results (M := sample_module)
              (R := answering empty_page_response) (T := sample_tempfile)
              sample_secrets sample_config (process_inputs [])
              (lit "scan.pdf") [37; 80; 68; 70] fresh_world
              (process_result (M := sample_module) empty_page_response
                 [PDict ∅] None true))
    as (w' & Hrun & Hmd & Hpages & Hfiles & _).
  - exists {[ lit "mistral" :=
                {[ lit "ocr_endpoint" := lit "https://ocr.example/v1/ocr";
                   lit "api_key" := lit "secret" ]} ]},
           {[ lit "ocr_endpoint" := lit "https://ocr.example/v1/ocr";
              lit "api_key" := lit "secret" ]}.
    repeat split; reflexivity.
  - reflexivity.
  - reflexivity.
  - reflexivity.
  - reflexivity.
  - exists w'. split; [exact Hrun|]. split; [exact Hmd|].
    split; [exact Hpages | exact Hfiles].
Defined.

Lemma conversion_is_followed_by_results_witness :
  ∃ w1,
    main (M := sample_module) (R := answering paged_response)
      (T := sample_tempfile) sample_secrets (process_inputs (lit "Report"))
      fresh_world
    = show_results (M := sample_module) (T := sample_tempfile) true w1
    ∧ pages_text (session_state w1)
      = [lit "# Report" ++ [10; 10] ++ lit "Intro text"; []; [];
         lit "Conclusion"].
Proof.
  destruct (conversion_is_followed_by_results (M := sample_module)
              (R := answering paged_response) (T := sample_tempfile)
              sample_secrets sample_config (process_inputs (lit "Report"))
              (lit "scan.pdf") [37; 80; 68; 70] fresh_world
              (process_result (M := sample_module) paged_response sample_pages
                 (Some (lit "Report")) true))
    as (w1 & Hrun & Hs & _).
  - exists {[ lit "mistral" :=
                {[ lit "ocr_endpoint" := lit "https://ocr.example/v1/ocr";
                   lit "api_key" := lit "secret" ]} ]},
           {[ lit "ocr_endpoint" := lit "https://ocr.example/v1/ocr";
              lit "api_key" := lit "secret" ]}.
    repeat split; reflexivity.
  - reflexivity.
  - reflexivity.
  - reflexivity.
  - vm_compute. discriminate.
  - exists w1. split; [exact Hrun|]. rewrite Hs. vm_compute. reflexivity.
Defined.

Lemma failed_conversion_shows_earlier_results_witness :
  ∃ w1,
    main (M := sample_module) (R := answering blank_response)
      (T := sample_tempfile) sample_secrets (process_inputs []) converted_world
    = show_results (M := sample_module) (T := sample_tempfile) true w1
    ∧ session_state w1 = session_state converted_world.
Proof.
  destruct (failed_conversion_shows_earlier_results (M := sample_module)
              (R := answering blank_response) (T := sample_tempfile)
              sample_secrets sample_config (process_inputs [])
              (lit "scan.pdf") [37; 80; 68; 70] converted_world
              "ValueError" no_content_message)
    as (w1 & Hrun & Hs & _).
  - exists {[ lit "mistral" :=
                {[ lit "ocr_endpoint" := lit "https://ocr.example/v1/ocr";
                   lit "api_key" := lit "secret" ]} ]},
           {[ lit "ocr_endpoint" := lit "https://ocr.example/v1/ocr";
              lit "api_key" := lit "secret" ]}.
    repeat split; reflexivity.
  - reflexivity.
  - reflexivity.
  - reflexivity.
  - reflexivity.
  - exists w1. split; [exact Hrun | exact Hs].
Defined.
